(** * testable.py: route-decorator scanner, tree walker and reporter

    A shallow embedding of [testable.py] and the properties of its
    specification.

    Conventions of the embedding

    - A Python [str] is a [string]; its characters are read as the code
      points U+0000..U+00FF.
    - A Python [int] is a [Z].
    - A Python [list] is a [list]; a [dict] is an association list in
      insertion order whose keys are kept distinct by the operations.
    - A computation that may raise is a value of [result]: [Ok v] when it
      returns [v], [Raise e] when the exception [e] propagates.
    - What the program obtains from outside its own text ([os.walk],
      [os.path], [open], [pyclbr], the module global [__file__]) is a field
      of the record [World].  There [pyclbr] is what it answers in the
      course of one run; the module [Process] adds what it keeps from one
      call to the next, and [find_in_process_observed] relates the two. *)

From Stdlib Require Import ZArith List String Ascii Bool Lia.
Import ListNotations.

Local Open Scope string_scope.
Local Open Scope list_scope.
Local Open Scope Z_scope.

(** ** Exceptions and the error monad *)

Inductive exn : Type :=
  | IndexError        (* list index out of range *)
  | KeyError          (* key missing from a dict *)
  | OSError           (* open / read failed *)
  | ImportError       (* pyclbr could not locate the module *)
  | SyntaxError       (* pyclbr could not parse the module *)
  | AttributeError    (* attribute missing from an object *)
  | RecursionError.   (* never raised by the code below: see [get_routes] *)

Inductive result (A : Type) : Type :=
  | Ok (a : A)
  | Raise (e : exn).

Arguments Ok {A} a.
Arguments Raise {A} e.

Definition bind {A B : Type} (m : result A) (k : A -> result B) : result B :=
  match m with
  | Ok a => k a
  | Raise e => Raise e
  end.

Notation "x <- m ;; k" := (bind m (fun x => k))
  (at level 61, m at next level, right associativity).

(** A Python [for x in l: s = body(s, x)] whose body may raise. *)
Fixpoint for_each {S A : Type} (body : S -> A -> result S)
  (l : list A) (s : S) : result S :=
  match l with
  | [] => Ok s
  | x :: rest => s' <- body s x ;; for_each body rest s'
  end.

(** ** Python [str] operations used by the program *)

Module Str.

(** [str.isspace] on one character, for code points below 256:
    TAB LF VT FF CR, FS GS RS US, SPACE, NEL and NBSP. *)
Definition isspace (c : ascii) : bool :=
  let n := nat_of_ascii c in
  ((9 <=? n) && (n <=? 13) || (28 <=? n) && (n <=? 32)
   || (n =? 133) || (n =? 160))%nat.

(** [s.startswith(p)] *)
Fixpoint startswith (s p : string) {struct p} : bool :=
  match p, s with
  | EmptyString, _ => true
  | String a p', String b s' => Ascii.eqb a b && startswith s' p'
  | String _ _, EmptyString => false
  end.

(** [p in s] *)
Fixpoint contains (p s : string) : bool :=
  startswith s p ||
  match s with
  | EmptyString => false
  | String _ s' => contains p s'
  end.

(** [s.endswith(p)] *)
Fixpoint endswith (s p : string) : bool :=
  String.eqb s p ||
  match s with
  | EmptyString => false
  | String _ s' => endswith s' p
  end.

(** [s.endswith(t)] for a tuple [t] of suffixes *)
Definition endswith_any (s : string) (t : list string) : bool :=
  existsb (endswith s) t.

Fixpoint lstrip (s : string) : string :=
  match s with
  | EmptyString => EmptyString
  | String c s' => if isspace c then lstrip s' else s
  end.

Fixpoint rstrip (s : string) : string :=
  match s with
  | EmptyString => EmptyString
  | String c s' =>
      match rstrip s' with
      | EmptyString => if isspace c then EmptyString else String c EmptyString
      | r => String c r
      end
  end.

(** [s.strip()] *)
Definition strip (s : string) : string := rstrip (lstrip s).

(** First and last characters, for stating what [strip] leaves. *)
Definition first (s : string) : option ascii :=
  match s with
  | EmptyString => None
  | String c _ => Some c
  end.

Fixpoint last (s : string) : option ascii :=
  match s with
  | EmptyString => None
  | String c EmptyString => Some c
  | String _ s' => last s'
  end.

Definition nonspace (o : option ascii) : bool :=
  match o with
  | None => false
  | Some c => negb (isspace c)
  end.

End Str.

(** ** Python list indexing *)

(** [l[i]]: a negative [i] counts from the end; out of range raises. *)
Definition getitem {A : Type} (l : list A) (i : Z) : result A :=
  let j := if i <? 0 then i + Z.of_nat (List.length l) else i in
  if j <? 0 then Raise IndexError
  else match nth_error l (Z.to_nat j) with
       | Some x => Ok x
       | None => Raise IndexError
       end.

(** ** The decorator scanner: [Testable.get_routes] *)

(** What one pass through the body of [while True] does. *)
Inductive control : Type :=
  | Continue (lineno : Z) (routes : list string)
  | Break (routes : list string)
  | Raised (e : exn).

(** The body of the loop, lines 71-77, from the values of [lineno] and
    [routes] at the top of the pass. *)
Definition loop_body (contents : list string) (lineno : Z)
  (routes : list string) : control :=
  let lineno := lineno - 1 in
  if lineno <? 0 then Break routes
  else
    match getitem contents lineno with
    | Raise e => Raised e
    | Ok line =>
        if Str.startswith line "@" then
          match getitem contents lineno with
          | Raise e => Raised e
          | Ok line' =>
              if Str.contains ".route(" line' then
                match getitem contents lineno with
                | Raise e => Raised e
                | Ok line'' => Continue lineno (routes ++ [Str.strip line''])
                end
              else Continue lineno routes
          end
        else Break routes
    end.

(** [while True: body], run for at most [fuel] passes. *)
Fixpoint while_true (fuel : nat) (contents : list string) (lineno : Z)
  (routes : list string) : option (result (list string)) :=
  match fuel with
  | O => None
  | S fuel' =>
      match loop_body contents lineno routes with
      | Continue lineno' routes' => while_true fuel' contents lineno' routes'
      | Break routes' => Some (Ok routes')
      | Raised e => Some (Raise e)
      end
  end.

(** Lines 68-78 with a bound on the number of passes. *)
Definition get_routes_fuel (fuel : nat) (contents : list string)
  (lineno : Z) : option (result (list string)) :=
  let routes := [] in
  let lineno := lineno - 1 in
  while_true fuel contents lineno routes.

(** [get_routes(contents, lineno)].  The loop is given [lineno + 1] passes,
    which [get_routes_fuel_enough] shows to be more than it ever takes, so
    the [None] branch is never reached. *)
Definition get_routes (contents : list string) (lineno : Z)
  : result (list string) :=
  match get_routes_fuel (S (Z.to_nat lineno)) contents lineno with
  | Some r => r
  | None => Raise RecursionError
  end.

(** ** Python [dict] with [str] keys, in insertion order *)

Module Dict.

Definition t (V : Type) : Type := list (string * V).

Definition keys {V : Type} (d : t V) : list string := map fst d.

(** [d.get(k)] *)
Fixpoint get {V : Type} (k : string) (d : t V) : option V :=
  match d with
  | [] => None
  | (k', v) :: d' => if String.eqb k k' then Some v else get k d'
  end.

(** [k in d] *)
Definition mem {V : Type} (k : string) (d : t V) : bool :=
  match get k d with
  | Some _ => true
  | None => false
  end.

(** [d[k] = v]: an old key keeps its place, a new one goes last. *)
Fixpoint set {V : Type} (k : string) (v : V) (d : t V) : t V :=
  match d with
  | [] => [(k, v)]
  | (k', v') :: d' =>
      if String.eqb k k' then (k, v) :: d' else (k', v') :: set k v d'
  end.

(** [d[k]] *)
Definition getitem {V : Type} (k : string) (d : t V) : result V :=
  match get k d with
  | Some v => Ok v
  | None => Raise KeyError
  end.

(** The value under [k] replaced by its image under [f]: what a method
    that mutates the object [d[k]] in place does to [d]. *)
Fixpoint update {V : Type} (k : string) (f : V -> V) (d : t V) : t V :=
  match d with
  | [] => []
  | (k', v) :: d' =>
      if String.eqb k k' then (k', f v) :: d' else (k', v) :: update k f d'
  end.

End Dict.

(** ** What [pyclbr] returns *)

(** The two descriptor classes of [pyclbr]. *)
Inductive pyclbr_class : Type := Function | Class.

(** [obj.__class__.__name__] *)
Definition class_name (c : pyclbr_class) : string :=
  match c with
  | Function => "Function"
  | Class => "Class"
  end.

(** A descriptor: the attributes ('file', 'lineno', 'module', 'name') named
    in the docstring of [Result], and its class. *)
Record pyclbr_obj : Type := {
  file : string;
  lineno : Z;
  module : string;
  name : string;
  cls : pyclbr_class
}.

(** ** [class Result] *)

Record Result : Type := {
  obj : pyclbr_obj;
  routes : list string;
  obj_type : string
}.

(** [Result(obj, **kwargs)]: [type] is the optional keyword argument. *)
Definition Result_init (o : pyclbr_obj) (type : option string) : Result :=
  {| obj := o;
     routes := [];
     obj_type := match type with
                 | Some ty => ty
                 | None => class_name (cls o)
                 end |}.

(** [result.routes = r] *)
Definition set_routes (result : Result) (r : list string) : Result :=
  {| obj := obj result; routes := r; obj_type := obj_type result |}.

(** The mapping [find] builds: file path to the records of that file. *)
Definition ResultMapping : Type := Dict.t (list Result).

(** ** The world outside the program *)

Record World : Type := {
  (** the module global [__file__] *)
  dunder_file : string;
  (** [os.walk(top, topdown=False)], as the list of triples it yields *)
  os_walk : string -> list (string * list string * list string);
  os_path_abspath : string -> string;
  os_path_expanduser : string -> string;
  os_path_join : string -> string -> string;
  os_path_splitext : string -> string * string;
  (** [with open(path, 'r') as f: f.readlines()] *)
  open_readlines : string -> result (list string);
  (** [pyclbr.readmodule_ex(module, path)], as the items of the dict it
      returns, in the dict's order: the answers of one run, for dicts of
      descriptors.  The cache that decides them, and a dict with a value
      that is no descriptor, are in [Process]. *)
  pyclbr_readmodule_ex :
    string -> list string -> result (list (string * pyclbr_obj))
}.

(** ** [class Testable] *)

Record Testable : Type := { top_dir : string }.

(** [Testable.__init__] *)
Definition Testable_init (W : World) (top : string) : Testable :=
  let top :=
    if Str.contains "~" top then os_path_expanduser W top else top in
  {| top_dir := os_path_abspath W top |}.

(** The default of [extensions], line 82 and the option of [analyze]. *)
Definition default_extensions : list string := [".py"; ".sh"].

Section Find.

Variable W : World.
Variable self : Testable.
Variable extensions : list string.

(** Lines 104-111: the body of [for name, obj in module_data.items()],
    for a value [obj] that is a descriptor ([Process.visit_value] has the
    other case).  [result] is appended to the list [results[full_path]]
    before its [routes] are assigned; the list holds the object itself,
    so the assignment shows in the list's last element. *)
Definition visit_item (full_path : string) (contents : list string)
  (results : ResultMapping) (item : string * pyclbr_obj)
  : result ResultMapping :=
  let '(_, o) := item in
  if negb (Str.startswith (file o) (top_dir self)) then Ok results
  else if negb (String.eqb (file o) full_path) then Ok results
  else
    let result := Result_init o None in
    recs <- Dict.getitem full_path results ;;
    let results := Dict.set full_path (recs ++ [result]) results in
    r <- get_routes contents (lineno o) ;;
    Ok (Dict.update full_path
          (fun recs => removelast recs ++ [set_routes result r]) results).

(** Lines 90-111: the body of [for filename in filenames]. *)
Definition visit_filename (parent_dir : string)
  (results : ResultMapping) (filename : string) : result ResultMapping :=
  if String.eqb filename (dunder_file W) then Ok results
  else if Str.endswith_any filename extensions then
    let '(fn, ext) := os_path_splitext W filename in
    let full_path := os_path_join W parent_dir filename in
    let results :=
      if negb (Dict.mem full_path results)
      then Dict.set full_path [] results
      else results in
    contents <- open_readlines W full_path ;;
    module_data <- pyclbr_readmodule_ex W fn [parent_dir] ;;
    for_each (visit_item full_path contents) module_data results
  else Ok results.

(** Lines 87-111: the body of the loop over [os.walk]. *)
Definition visit_dir (results : ResultMapping)
  (triple : string * list string * list string) : result ResultMapping :=
  let '(parent_dir, sub_dirs, filenames) := triple in
  let parent_dir := os_path_abspath W parent_dir in
  for_each (visit_filename parent_dir) filenames results.

(** [Testable.find], with [extensions] already defaulted. *)
Definition find_in : result ResultMapping :=
  let results := [] in
  for_each visit_dir (os_walk W (top_dir self)) results.

End Find.

(** [Testable.find(extensions=None)] *)
Definition find (W : World) (self : Testable)
  (extensions : option (list string)) : result ResultMapping :=
  let extensions :=
    match extensions with
    | None => default_extensions
    | Some e => e
    end in
  find_in W self extensions.

(** ** The reporter *)

(** A JSON document.  The Python values the encoder meets here (dicts with
    [str] keys, lists, strs and ints) map one to one onto such documents,
    so the same type stands for the value [default] returns. *)
#[warnings="-register-all"]
Inductive json : Type :=
  | JInt (n : Z)
  | JString (s : string)
  | JArray (l : list json)
  | JObject (fields : list (string * json)).

(** [ResultJSONEncoder.default] on an instance of [Result], lines 41-48. *)
Definition default (o : Result) : json :=
  JObject
    [(file (obj o),
      JObject [("type", JString (obj_type o));
               ("name", JString (name (obj o)));
               ("lineno", JInt (lineno (obj o)));
               ("routes", JArray (map JString (routes o)))])].

(** [json.dumps(results, cls=ResultJSONEncoder, indent=4)] as a document:
    the dict becomes an object, each list an array, and each [Result] what
    [default] returns for it.  The layout of the text is left out. *)
Definition dumps (results : ResultMapping) : json :=
  JObject (map (fun '(path, recs) => (path, JArray (map default recs)))
               results).

(** [analyze(top_dir, extensions)]: the document it prints. *)
Definition analyze (W : World) (top : string) (extensions : list string)
  : result json :=
  let testable := Testable_init W top in
  results <- find W testable (Some extensions) ;;
  let data := dumps results in
  Ok data.

(** ** A POSIX world to run the program in *)

Module Posix.

(** [posixpath.join(a, b)] *)
Definition join (a b : string) : string :=
  if Str.startswith b "/" then b
  else if String.eqb a "" || Str.endswith a "/" then String.append a b
  else String.append a (String.append "/" b).

(** [s.rfind(c)], [None] for -1 *)
Fixpoint rfind (c : ascii) (s : string) : option nat :=
  match s with
  | EmptyString => None
  | String a s' =>
      match rfind c s' with
      | Some i => Some (S i)
      | None => if Ascii.eqb a c then Some O else None
      end
  end.

Fixpoint all_dots (s : string) : bool :=
  match s with
  | EmptyString => true
  | String a s' => Ascii.eqb a "." && all_dots s'
  end.

(** [posixpath.splitext(p)]: the extension starts at the last dot of the
    last component, unless only dots come before it there. *)
Definition splitext (p : string) : string * string :=
  match rfind "." p with
  | None => (p, "")
  | Some d =>
      let start := match rfind "/" p with
                   | None => O
                   | Some i => S i
                   end in
      if (start <=? d)%nat
         && negb (all_dots (String.substring start (d - start) p))
      then (String.substring 0 d p,
            String.substring d (String.length p - d) p)
      else (p, "")
  end.

(** A file system given by the triples [os.walk] yields from [root], the
    lines of each file and the answers of [pyclbr]; paths are absolute
    and normal, so [abspath] and [expanduser] leave them alone. *)
Definition world (script : string) (root : string)
  (tree : list (string * list string * list string))
  (lines : list (string * list string))
  (modules : list (string * string * list (string * pyclbr_obj)))
  : World :=
  {| dunder_file := script;
     os_walk := fun top => if String.eqb top root then tree else [];
     os_path_abspath := fun p => p;
     os_path_expanduser := fun p => p;
     os_path_join := join;
     os_path_splitext := splitext;
     open_readlines := fun path =>
       match Dict.get path lines with
       | Some l => Ok l
       | None => Raise OSError
       end;
     pyclbr_readmodule_ex := fun fn path =>
       match
         List.find (fun m => String.eqb (fst (fst m)) fn
                             && existsb (String.eqb (snd (fst m))) path)
                   modules
       with
       | Some m => Ok (snd m)
       | None => Raise ImportError
       end |}.

End Posix.

(** A line of a text file: [s] and the newline that ends it. *)
Definition line (s : string) : string :=
  String.append s (String "010"%char EmptyString).

Module Examples.

Definition script : string := "/opt/testable/testable.py".

(** The file of the end-to-end scenario. *)
Definition views_py : list string :=
  [line "@app.route('/x')"; line "@login_required"; line "def handler():"].

Definition handler : pyclbr_obj :=
  {| file := "/srv/app/views.py"; lineno := 3; module := "views";
     name := "handler"; cls := Function |}.

(** One directory, one file, one function. *)
Definition app : World :=
  Posix.world script "/srv/app"
    [("/srv/app", [], ["views.py"])]
    [("/srv/app/views.py", views_py)]
    [("views", "/srv/app", [("handler", handler)])].

(** The same tree with a text file added next to the source file. *)
Definition app_notes : World :=
  Posix.world script "/srv/app"
    [("/srv/app", [], ["views.py"; "notes.txt"])]
    [("/srv/app/views.py", views_py);
     ("/srv/app/notes.txt", [line "remember the tests"])]
    [("views", "/srv/app", [("handler", handler)])].

(** The same tree seen from a world that also holds another tree. *)
Definition app_and_more : World :=
  Posix.world script "/srv/app"
    [("/srv/app", [], ["views.py"])]
    [("/srv/app/views.py", views_py);
     ("/srv/other/jobs.py", [line "def job():"])]
    [("views", "/srv/app", [("handler", handler)]);
     ("jobs", "/srv/other",
      [("job", {| file := "/srv/other/jobs.py"; lineno := 1;
                  module := "jobs"; name := "job"; cls := Function |})])].

(** Two files; [views.py] imports [helper] from [util.py], so [pyclbr]
    lists the descriptor of [helper] for [views] as well, under the
    file that declares it. *)
Definition helper : pyclbr_obj :=
  {| file := "/srv/app/util.py"; lineno := 1; module := "util";
     name := "helper"; cls := Function |}.

Definition app_import : World :=
  Posix.world script "/srv/app"
    [("/srv/app", [], ["views.py"; "util.py"])]
    [("/srv/app/views.py",
      line "from util import helper" :: line "" :: views_py);
     ("/srv/app/util.py", [line "def helper():"; line "    pass"])]
    [("views", "/srv/app",
      [("helper", helper);
       ("handler",
        {| file := "/srv/app/views.py"; lineno := 5; module := "views";
           name := "handler"; cls := Function |})]);
     ("util", "/srv/app", [("helper", helper)])].

(** The analyzer run from its own directory by its bare file name, as in
    [python testable.py]: [__file__] is what was typed. *)
Definition own_dir_bare : World :=
  Posix.world "testable.py" "/opt/testable"
    [("/opt/testable", [], ["testable.py"])]
    [("/opt/testable/testable.py", [line "class Testable:"])]
    [("testable", "/opt/testable",
      [("Testable", {| file := "/opt/testable/testable.py"; lineno := 1;
                       module := "testable"; name := "Testable";
                       cls := Class |})])].

(** The same run when [__file__] holds the script's path. *)
Definition own_dir_path : World :=
  Posix.world "/opt/testable/testable.py" "/opt/testable"
    [("/opt/testable", [], ["testable.py"])]
    [("/opt/testable/testable.py", [line "class Testable:"])]
    [("testable", "/opt/testable",
      [("Testable", {| file := "/opt/testable/testable.py"; lineno := 1;
                       module := "testable"; name := "Testable";
                       cls := Class |})])].

End Examples.

(** ** Notions the properties are stated with *)

(** The substring that marks a route, line 74. *)
Definition route_marker : string := ".route(".

(** What a backward scan collects from the lines above a definition,
    given nearest first. *)
Fixpoint scan_back (above : list string) : list string :=
  match above with
  | [] => []
  | l :: above' =>
      if Str.startswith l "@" then
        (if Str.contains route_marker l then [Str.strip l] else [])
        ++ scan_back above'
      else []
  end.

(** The scan goes no further up than [pre]: the file starts there, or the
    last line of [pre] does not start with the decorator marker. *)
Definition stops_scan (pre : list string) : Prop :=
  match rev pre with
  | [] => True
  | l :: _ => Str.startswith l "@" = false
  end.

(** What holds of a collected route. *)
Definition route_ok (r : string) : Prop :=
  Str.startswith r "@" = true
  /\ Str.contains route_marker r = true
  /\ Str.strip r = r
  /\ Str.nonspace (Str.first r) = true
  /\ Str.nonspace (Str.last r) = true.

(** The test of lines 104-107, as the condition to keep a descriptor. *)
Definition retained (self : Testable) (full_path : string)
  (o : pyclbr_obj) : bool :=
  Str.startswith (file o) (top_dir self) && String.eqb (file o) full_path.

(** The record of a kept descriptor, once its routes are assigned. *)
Definition record_of (o : pyclbr_obj) (r : list string) : Result :=
  set_routes (Result_init o None) r.

(** The records one file adds to its entry, in the order of the items. *)
Fixpoint records_of (self : Testable) (full_path : string)
  (contents : list string) (items : list (string * pyclbr_obj))
  : result (list Result) :=
  match items with
  | [] => Ok []
  | (_, o) :: items' =>
      if retained self full_path o then
        r <- get_routes contents (lineno o) ;;
        rs <- records_of self full_path contents items' ;;
        Ok (record_of o r :: rs)
      else records_of self full_path contents items'
  end.

(** The test of lines 90-92, as the condition to analyze a file name. *)
Definition candidate (W : World) (extensions : list string)
  (filename : string) : bool :=
  negb (String.eqb filename (dunder_file W))
  && Str.endswith_any filename extensions.

(** The files [find] analyzes, as pairs of the directory's absolute path
    and the file name, in the order of the walk. *)
Definition visits (W : World) (self : Testable) (extensions : list string)
  : list (string * string) :=
  flat_map
    (fun '(parent_dir, _, filenames) =>
       map (pair (os_path_abspath W parent_dir))
           (filter (candidate W extensions) filenames))
    (os_walk W (top_dir self)).

(** The key under which a visit files its records. *)
Definition path_of (W : World) (v : string * string) : string :=
  os_path_join W (fst v) (snd v).

(** What the analysis of one file does to the mapping: the records of the
    file go after those its entry holds, and a file with no entry gets
    one. *)
Definition visit (W : World) (self : Testable) (results : ResultMapping)
  (v : string * string) : result ResultMapping :=
  let full_path := path_of W v in
  contents <- open_readlines W full_path ;;
  module_data <-
    pyclbr_readmodule_ex W (fst (os_path_splitext W (snd v))) [fst v] ;;
  rs <- records_of self full_path contents module_data ;;
  Ok (Dict.set full_path
        (match Dict.get full_path results with
         | Some old => old ++ rs
         | None => rs
         end)
        results).

(** The extensions [find] works with. *)
Definition extensions_or_default (extensions : option (list string))
  : list string :=
  match extensions with
  | None => default_extensions
  | Some e => e
  end.

(** The record [r] under the key [k] was made in the visit [v]: [v] is
    filed under [k], and [r] is the record of a descriptor that [pyclbr]
    gave for the file and the test of lines 104-107 kept, with the routes
    [get_routes] found in the lines of the file. *)
Definition from_visit (W : World) (self : Testable) (k : string)
  (r : Result) (v : string * string) : Prop :=
  path_of W v = k
  /\ exists contents items key,
      open_readlines W k = Ok contents
      /\ pyclbr_readmodule_ex W (fst (os_path_splitext W (snd v))) [fst v]
         = Ok items
      /\ In (key, obj r) items
      /\ retained self k (obj r) = true
      /\ get_routes contents (lineno (obj r)) = Ok (routes r)
      /\ obj_type r = class_name (cls (obj r)).


(** The walk meets no file twice. *)
Definition distinct_paths (W : World) (self : Testable)
  (extensions : list string) : Prop :=
  NoDup (map (path_of W) (visits W self extensions)).

(** What holds of the mapping after the visits [done]. *)
Definition visited_inv (W : World) (self : Testable)
  (done : list (string * string)) (results : ResultMapping) : Prop :=
  NoDup (Dict.keys results)
  /\ (forall p, In p (Dict.keys results) <-> In p (map (path_of W) done))
  /\ (forall k recs r, In (k, recs) results -> In r recs ->
                       exists v, In v done /\ from_visit W self k r v).

(** The files under the root whose name ends with a recognized extension,
    by full path. *)
Definition matching_files (W : World) (self : Testable)
  (extensions : list string) : list string :=
  flat_map
    (fun '(parent_dir, _, filenames) =>
       map (os_path_join W (os_path_abspath W parent_dir))
           (filter (fun f => Str.endswith_any f extensions) filenames))
    (os_walk W (top_dir self)).

(** The names of the fields of a JSON object. *)
Definition field_names (j : json) : list string :=
  match j with
  | JObject fields => map fst fields
  | _ => []
  end.

(** A JSON object with exactly the fields type, name, lineno and routes. *)
Definition has_record_fields (j : json) : Prop :=
  (exists fields, j = JObject fields)
  /\ forall k, In k (field_names j)
               <-> In k ["type"; "name"; "lineno"; "routes"].

(** ** Notions for the further properties *)

(** The analysis of one file, lines 98-111, apart from the mapping: the
    records the file yields, or the exception that ends the run. *)
Definition visit_records (W : World) (self : Testable)
  (v : string * string) : result (list Result) :=
  let full_path := path_of W v in
  contents <- open_readlines W full_path ;;
  module_data <-
    pyclbr_readmodule_ex W (fst (os_path_splitext W (snd v))) [fst v] ;;
  records_of self full_path contents module_data.

(** A string of whitespace only. *)
Fixpoint all_space (s : string) : bool :=
  match s with
  | EmptyString => true
  | String c s' => Str.isspace c && all_space s'
  end.

(** [l2] is [l1] with whitespace added at its end: another line
    terminator, trailing blanks. *)
Definition same_text (l1 l2 : string) : Prop :=
  exists ws, all_space ws = true /\ l2 = String.append l1 ws.

(** Two records that [default] cannot tell apart. *)
Definition same_fields (r1 r2 : Result) : Prop :=
  file (obj r1) = file (obj r2)
  /\ obj_type r1 = obj_type r2
  /\ name (obj r1) = name (obj r2)
  /\ lineno (obj r1) = lineno (obj r2)
  /\ routes r1 = routes r2.

(** The last component of a path: what follows its last '/'. *)
Definition last_component (p : string) : string :=
  match Posix.rfind "/" p with
  | None => p
  | Some i => String.substring (S i) (String.length p - S i) p
  end.

Module Cases.

(** A file with a class and a function, which also imports [loads] from
    the standard library under another name. *)
Definition models_py : list string :=
  [line "from json import loads as parse"; line "class User:";
   line "    pass"; line "@app.route('/load')"; line "def load():";
   line "    return parse('{}')"].

Definition user : pyclbr_obj :=
  {| file := "/srv/app/models.py"; lineno := 2; module := "models";
     name := "User"; cls := Class |}.

Definition load : pyclbr_obj :=
  {| file := "/srv/app/models.py"; lineno := 5; module := "models";
     name := "load"; cls := Function |}.

Definition models : World :=
  Posix.world Examples.script "/srv/app"
    [("/srv/app", [], ["models.py"; "README.md"])]
    [("/srv/app/models.py", models_py);
     ("/srv/app/README.md", [line "models"])]
    [("models", "/srv/app",
      [("parse", {| file := "/usr/lib/python3/json/__init__.py";
                    lineno := 299; module := "json"; name := "loads";
                    cls := Function |});
       ("User", user);
       ("load", load)])].

(** Two trees in one file system, each with a [views.py]. *)
Definition blog_views_py : list string :=
  [line "def index():"; line "    return 0"].

Definition app_views_py : list string :=
  [line "@app.route('/x')"; line "@login_required";
   line "def handler():"; line "    return 1"].

Definition index : pyclbr_obj :=
  {| file := "/srv/blog/views.py"; lineno := 1; module := "views";
     name := "index"; cls := Function |}.

Definition two_trees : World :=
  {| dunder_file := Examples.script;
     os_walk := fun top =>
       if String.eqb top "/srv/app"
       then [("/srv/app", [], ["views.py"])]
       else if String.eqb top "/srv/blog"
       then [("/srv/blog", [], ["views.py"])]
       else [];
     os_path_abspath := fun p => p;
     os_path_expanduser := fun p => p;
     os_path_join := Posix.join;
     os_path_splitext := Posix.splitext;
     open_readlines := fun path =>
       if String.eqb path "/srv/app/views.py" then Ok app_views_py
       else if String.eqb path "/srv/blog/views.py" then Ok blog_views_py
       else Raise OSError;
     pyclbr_readmodule_ex := fun fn path =>
       if String.eqb fn "views" && existsb (String.eqb "/srv/app") path
       then Ok [("handler", Examples.handler)]
       else if String.eqb fn "views"
               && existsb (String.eqb "/srv/blog") path
       then Ok [("index", index)]
       else Raise ImportError |}.

End Cases.

(** ** [find] in a process: what [pyclbr] keeps between calls *)

Module Process.

(** A value of the dict [pyclbr] returns: a descriptor or, under the key
    ['__path__'] that the dict of a package holds, a list of
    directories. *)
Inductive value : Type :=
  | Descriptor (o : pyclbr_obj)
  | PathList (dirs : list string).

Definition tree : Type := list (string * value).

(** [pyclbr._modules]: the dict of every module read so far in the
    process, by module name. *)
Definition Cache : Type := Dict.t tree.

(** [pyclbr] on a module that is not in its cache: it reads the module
    and those it imports, and answers with the dict of the module and the
    cache as it leaves it. *)
Record Pyclbr : Type := {
  read : Cache -> string -> list string -> result (tree * Cache)
}.

(** [pyclbr.readmodule_ex(module, path)]: a module that is in the cache
    is answered from it, whatever the path. *)
Definition readmodule_ex (P : Pyclbr) (modules : Cache)
  (modname : string) (path : list string) : result (tree * Cache) :=
  match Dict.get modname modules with
  | Some t => Ok (t, modules)
  | None => read P modules modname path
  end.

(** Every entry of the first cache is in the second. *)
Definition extends (modules modules' : Cache) : Prop :=
  forall modname t,
    Dict.get modname modules = Some t ->
    Dict.get modname modules' = Some t.

(** [pyclbr], reading a module that is not in the cache, puts the dict
    it answers with in the cache, under the name of the module, and
    leaves what the cache held as it was. *)
Definition caching (P : Pyclbr) : Prop :=
  forall modules modname path t modules',
    Dict.get modname modules = None ->
    read P modules modname path = Ok (t, modules') ->
    Dict.get modname modules' = Some t /\ extends modules modules'.

(** A [pyclbr] that reads as the world [W] answers, and caches the module
    asked for. *)
Definition reading (W : World) : Pyclbr :=
  {| read := fun modules modname path =>
       items <- pyclbr_readmodule_ex W modname path ;;
       let t := map (fun it => (fst it, Descriptor (snd it))) items in
       Ok (t, Dict.set modname t modules) |}.

Section Find.

Variable W : World.
Variable P : Pyclbr.
Variable self : Testable.
Variable extensions : list string.

(** Lines 104-111 for a value of the dict: line 104 reads [obj.file],
    which a list does not have. *)
Definition visit_value (full_path : string) (contents : list string)
  (results : ResultMapping) (item : string * value)
  : result ResultMapping :=
  let '(key, v) := item in
  match v with
  | Descriptor o => visit_item self full_path contents results (key, o)
  | PathList _ => Raise AttributeError
  end.

(** Lines 90-111 with the cache of [pyclbr] beside [results]. *)
Definition visit_filename (parent_dir : string)
  (state : ResultMapping * Cache) (filename : string)
  : result (ResultMapping * Cache) :=
  let '(results, modules) := state in
  if String.eqb filename (dunder_file W) then Ok (results, modules)
  else if Str.endswith_any filename extensions then
    let '(fn, ext) := os_path_splitext W filename in
    let full_path := os_path_join W parent_dir filename in
    let results :=
      if negb (Dict.mem full_path results)
      then Dict.set full_path [] results
      else results in
    contents <- open_readlines W full_path ;;
    answer <- readmodule_ex P modules fn [parent_dir] ;;
    let '(module_data, modules) := answer in
    results <- for_each (visit_value full_path contents)
                 module_data results ;;
    Ok (results, modules)
  else Ok (results, modules).

(** Lines 87-111. *)
Definition visit_dir (state : ResultMapping * Cache)
  (triple : string * list string * list string)
  : result (ResultMapping * Cache) :=
  let '(parent_dir, sub_dirs, filenames) := triple in
  let parent_dir := os_path_abspath W parent_dir in
  for_each (visit_filename parent_dir) filenames state.

(** [Testable.find] run with the cache [modules]: the mapping it returns
    and the cache it leaves. *)
Definition find_in (modules : Cache) : result (ResultMapping * Cache) :=
  let results := [] in
  for_each visit_dir (os_walk W (top_dir self)) (results, modules).

End Find.

(** [Testable.find(extensions=None)] in a process whose [pyclbr] has the
    cache [modules]. *)
Definition find (W : World) (P : Pyclbr) (self : Testable)
  (extensions : option (list string)) (modules : Cache)
  : result (ResultMapping * Cache) :=
  find_in W P self (extensions_or_default extensions) modules.

(** The descriptors of a dict that holds nothing else. *)
Fixpoint descriptors (t : tree) : result (list (string * pyclbr_obj)) :=
  match t with
  | [] => Ok []
  | (key, Descriptor o) :: t' =>
      items <- descriptors t' ;; Ok ((key, o) :: items)
  | (_, PathList _) :: _ => Raise AttributeError
  end.

(** The world as a run sees it that [pyclbr] answers from the cache
    [modules] alone. *)
Definition observed (W : World) (modules : Cache) : World :=
  {| dunder_file := dunder_file W;
     os_walk := os_walk W;
     os_path_abspath := os_path_abspath W;
     os_path_expanduser := os_path_expanduser W;
     os_path_join := os_path_join W;
     os_path_splitext := os_path_splitext W;
     open_readlines := open_readlines W;
     pyclbr_readmodule_ex := fun modname _ =>
       match Dict.get modname modules with
       | Some t => descriptors t
       | None => Raise ImportError
       end |}.

(** A loop body over a state and a cache replays: what it does from a
    cache it also does, to the state, from every cache that extends the
    one it left, and it leaves that cache as it found it. *)
Definition replays {S A : Type}
  (body : S * Cache -> A -> result (S * Cache)) : Prop :=
  forall x s c s1 c1,
    body (s, c) x = Ok (s1, c1) ->
    extends c c1
    /\ forall c2, extends c1 c2 -> body (s, c2) x = Ok (s1, c2).

(** Two worlds show [find] the same files: the same [__file__], the same
    walk from the root and, for each file of the walk that passes the
    tests of lines 90 and 92, the same paths and the same lines. *)
Definition same_files (W1 W2 : World) (self : Testable)
  (extensions : list string) : Prop :=
  dunder_file W1 = dunder_file W2
  /\ os_walk W1 (top_dir self) = os_walk W2 (top_dir self)
  /\ forall parent_dir sub_dirs filenames filename,
      In (parent_dir, sub_dirs, filenames) (os_walk W1 (top_dir self)) ->
      In filename filenames ->
      candidate W1 extensions filename = true ->
      let dir1 := os_path_abspath W1 parent_dir in
      let dir2 := os_path_abspath W2 parent_dir in
      dir1 = dir2
      /\ os_path_splitext W1 filename = os_path_splitext W2 filename
      /\ os_path_join W1 dir1 filename = os_path_join W2 dir2 filename
      /\ open_readlines W1 (os_path_join W1 dir1 filename)
         = open_readlines W2 (os_path_join W2 dir2 filename).

End Process.

Module Runs.

(** The two trees of [Cases.two_trees] in a world that differs
    elsewhere: another file can be read, and the world's own [pyclbr]
    answers nothing. *)
Definition two_trees_elsewhere : World :=
  {| dunder_file := dunder_file Cases.two_trees;
     os_walk := os_walk Cases.two_trees;
     os_path_abspath := os_path_abspath Cases.two_trees;
     os_path_expanduser := os_path_expanduser Cases.two_trees;
     os_path_join := os_path_join Cases.two_trees;
     os_path_splitext := os_path_splitext Cases.two_trees;
     open_readlines := fun path =>
       if String.eqb path "/tmp/scratch.py" then Ok [line "x = 1"]
       else open_readlines Cases.two_trees path;
     pyclbr_readmodule_ex := fun _ _ => Raise ImportError |}.


End Runs.

(** * Properties *)

Example find_app :
  find Examples.app (Testable_init Examples.app "/srv/app") None
  = Ok [("/srv/app/views.py",
         [{| obj := Examples.handler;
             routes := ["@app.route('/x')"];
             obj_type := "Function" |}])].
Proof. vm_compute. reflexivity. Qed.

(** ** Loops and dicts *)

Lemma for_each_app {S A : Type} (body : S -> A -> result S)
  (l1 l2 : list A) (s : S) :
  for_each body (l1 ++ l2) s
  = (s' <- for_each body l1 s ;; for_each body l2 s').
Proof.
  revert s. induction l1 as [|x l1 IH]; intros s; [reflexivity|].
  cbn [app for_each]. destruct (body s x); [apply IH|reflexivity].
Qed.

(** A loop whose body skips the elements that fail a test. *)
Lemma for_each_filter {S A : Type} (body : S -> A -> result S)
  (keep : A -> bool) (l : list A) (s : S) :
  for_each (fun s x => if keep x then body s x else Ok s) l s
  = for_each body (filter keep l) s.
Proof.
  revert s. induction l as [|x l IH]; intros s; [reflexivity|].
  cbn [for_each filter]. destruct (keep x); cbn [for_each bind].
  - destruct (body s x); [apply IH|reflexivity].
  - apply IH.
Qed.

Lemma for_each_map {S A B : Type} (body : S -> B -> result S)
  (f : A -> B) (l : list A) (s : S) :
  for_each body (map f l) s = for_each (fun s x => body s (f x)) l s.
Proof.
  revert s. induction l as [|x l IH]; intros s; [reflexivity|].
  cbn [map for_each]. destruct (body s (f x)); [apply IH|reflexivity].
Qed.

(** A loop over the elements of the lists a loop runs over. *)
Lemma for_each_flat_map {S A B : Type} (body : S -> B -> result S)
  (f : A -> list B) (l : list A) (s : S) :
  for_each body (flat_map f l) s
  = for_each (fun s x => for_each body (f x) s) l s.
Proof.
  revert s. induction l as [|x l IH]; intros s; [reflexivity|].
  cbn [flat_map for_each]. rewrite for_each_app.
  destruct (for_each body (f x) s); [apply IH|reflexivity].
Qed.

(** Two bodies that agree on the elements of the list give one loop. *)
Lemma for_each_ext {S A : Type} (body1 body2 : S -> A -> result S)
  (l : list A) (s : S) :
  (forall x s, In x l -> body1 s x = body2 s x) ->
  for_each body1 l s = for_each body2 l s.
Proof.
  revert s. induction l as [|x l IH]; intros s H; [reflexivity|].
  cbn [for_each]. rewrite (H x s) by now left.
  destruct (body2 s x); [|reflexivity].
  apply IH. intros y s' Hy. apply H. now right.
Qed.

(** An invariant of the state, indexed by the elements already done. *)
Lemma for_each_invariant {S A : Type} (body : S -> A -> result S)
  (P : list A -> S -> Prop) (l : list A) (s s' : S) :
  P [] s ->
  (forall done x rest s s',
      l = done ++ x :: rest -> P done s -> body s x = Ok s' ->
      P (done ++ [x]) s') ->
  for_each body l s = Ok s' -> P l s'.
Proof.
  intros H0 Hstep.
  assert (G : forall todo done s,
             l = done ++ todo -> P done s ->
             for_each body todo s = Ok s' -> P l s').
  { induction todo as [|x todo IH]; intros done t Hl Hd H.
    - inversion H. subst. now rewrite app_nil_r.
    - cbn [for_each] in H. destruct (body t x) as [t'|] eqn:B;
        [|discriminate].
      apply (IH (done ++ [x]) t').
      + now rewrite <- app_assoc.
      + eapply Hstep; eassumption.
      + exact H. }
  apply (G l [] s); [reflexivity|exact H0].
Qed.

Module DictFacts.
Import Dict.

Section Facts.
Context {V : Type}.
Implicit Types (d : t V) (k : string) (v : V).

Lemma get_set_same k v d : get k (set k v d) = Some v.
Proof.
  induction d as [|[k' v'] d IH]; cbn [set get].
  - now rewrite String.eqb_refl.
  - destruct (String.eqb k k') eqn:E; cbn [get]; rewrite ?E;
      [now rewrite String.eqb_refl|exact IH].
Qed.

Lemma get_set_other k k' v d :
  k' <> k -> get k' (set k v d) = get k' d.
Proof.
  intros Hk. apply String.eqb_neq in Hk.
  induction d as [|[k'' v''] d IH]; cbn [set get].
  - now rewrite Hk.
  - destruct (String.eqb k k'') eqn:E; cbn [get].
    + apply String.eqb_eq in E. subst k''. now rewrite Hk.
    + now rewrite IH.
Qed.

Lemma set_set k v v' d : set k v' (set k v d) = set k v' d.
Proof.
  induction d as [|[k' w] d IH]; cbn [set].
  - now rewrite String.eqb_refl.
  - destruct (String.eqb k k') eqn:E; cbn [set]; rewrite ?E;
      [now rewrite String.eqb_refl|now rewrite IH].
Qed.

Lemma set_get k v d : get k d = Some v -> set k v d = d.
Proof.
  induction d as [|[k' w] d IH]; cbn [set get]; [discriminate|].
  destruct (String.eqb k k') eqn:E.
  - apply String.eqb_eq in E. intros H. inversion H. now subst.
  - intros H. now rewrite IH.
Qed.

Lemma update_set k (f : V -> V) v d :
  update k f (set k v d) = set k (f v) d.
Proof.
  induction d as [|[k' w] d IH]; cbn [set update].
  - now rewrite String.eqb_refl.
  - destruct (String.eqb k k') eqn:E; cbn [update]; rewrite ?E.
    + rewrite String.eqb_refl.
      apply String.eqb_eq in E. now subst.
    + now rewrite IH.
Qed.



Lemma in_keys_set k k' v d :
  In k' (keys (set k v d)) <-> k' = k \/ In k' (keys d).
Proof.
  unfold keys.
  induction d as [|[k'' w] d IH]; cbn [set map fst In].
  - intuition.
  - destruct (String.eqb k k'') eqn:E; cbn [map fst In].
    + apply String.eqb_eq in E. subst. intuition.
    + rewrite IH. intuition.
Qed.

Lemma NoDup_keys_set k v d : NoDup (keys d) -> NoDup (keys (set k v d)).
Proof.
  unfold keys.
  induction d as [|[k' w] d IH]; cbn [set map fst]; intros H.
  - repeat constructor. intros [].
  - inversion H as [|? ? Hn Hd]; subst.
    destruct (String.eqb k k') eqn:E; cbn [map fst].
    + apply String.eqb_eq in E. subst. now constructor.
    + constructor; [|now apply IH].
      intros Hin. apply (in_keys_set k k' v d) in Hin.
      apply String.eqb_neq in E. destruct Hin; [congruence|auto].
Qed.

Lemma in_set k k' v v' d :
  In (k', v') (set k v d) -> (k' = k /\ v' = v) \/ In (k', v') d.
Proof.
  induction d as [|[k'' w] d IH]; cbn [set In].
  - intros [H|[]]. inversion H. auto.
  - destruct (String.eqb k k'') eqn:E; cbn [In].
    + intros [H|H]; [inversion H|]; auto.
    + intros [H|H]; [auto|]. destruct (IH H); auto.
Qed.

Lemma in_get k v d : NoDup (keys d) -> In (k, v) d -> get k d = Some v.
Proof.
  unfold keys.
  induction d as [|[k' w] d IH]; cbn [map fst get In]; [now intros _ []|].
  intros H Hin. inversion H as [|? ? Hn Hd]; subst.
  destruct Hin as [Hin|Hin].
  - inversion Hin. subst. now rewrite String.eqb_refl.
  - destruct (String.eqb k k') eqn:E; [|now apply IH].
    apply String.eqb_eq in E. subst. exfalso. apply Hn.
    now apply (in_map fst) in Hin.
Qed.

Lemma get_in k v d : get k d = Some v -> In (k, v) d.
Proof.
  induction d as [|[k' w] d IH]; cbn [get In]; [discriminate|].
  destruct (String.eqb k k') eqn:E; intros H.
  - apply String.eqb_eq in E. inversion H. subst. now left.
  - right. now apply IH.
Qed.

End Facts.

End DictFacts.

(** ** Facts about [str] *)

Module StrFacts.
Import Str.

Lemma startswith_at (s : string) :
  startswith s "@" = true -> exists s', s = String "@" s'.
Proof.
  destruct s as [|c s']; cbn [startswith]; [discriminate|].
  rewrite andb_true_r. intros H. apply Ascii.eqb_eq in H. subst c.
  now exists s'.
Qed.

Lemma rstrip_cons_nonspace (c : ascii) (s : string) :
  isspace c = false -> exists r, rstrip (String c s) = String c r.
Proof.
  intros Hc. simpl. destruct (rstrip s) as [|a r].
  - rewrite Hc. now exists EmptyString.
  - now exists (String a r).
Qed.

Lemma rstrip_cons_nonempty (c : ascii) (s : string) :
  rstrip s <> EmptyString -> rstrip (String c s) = String c (rstrip s).
Proof.
  intros H. simpl. destruct (rstrip s); [contradiction|reflexivity].
Qed.

Lemma rstrip_idempotent (s : string) : rstrip (rstrip s) = rstrip s.
Proof.
  induction s as [|c s IH]; [reflexivity|].
  simpl. destruct (rstrip s) as [|a r] eqn:E.
  - destruct (isspace c) eqn:Hc; simpl; [reflexivity|].
    now rewrite Hc.
  - change (rstrip (String c (String a r)) = String c (String a r)).
    rewrite rstrip_cons_nonempty; rewrite IH; [reflexivity|discriminate].
Qed.

Lemma last_rstrip (s : string) :
  rstrip s <> EmptyString -> nonspace (last (rstrip s)) = true.
Proof.
  induction s as [|c s IH]; [now intros []|].
  simpl. destruct (rstrip s) as [|a r] eqn:E.
  - destruct (isspace c) eqn:Hc; [now intros []|].
    intros _. simpl. now rewrite Hc.
  - intros _. change (nonspace (last (String a r)) = true).
    apply IH. discriminate.
Qed.

Lemma lstrip_nonspace (c : ascii) (s : string) :
  isspace c = false -> lstrip (String c s) = String c s.
Proof. intros Hc. simpl. now rewrite Hc. Qed.

Lemma startswith_nonempty (s p : string) :
  startswith s p = true -> p <> EmptyString -> s <> EmptyString.
Proof. destruct p, s; simpl; congruence. Qed.

(** A prefix that ends in a character [rstrip] keeps is kept whole. *)
Lemma startswith_rstrip (p s : string) :
  nonspace (last p) = true ->
  startswith s p = true -> startswith (rstrip s) p = true.
Proof.
  revert s. induction p as [|a p IH]; [reflexivity|].
  intros [|b s] Hl H; [discriminate|].
  cbn [startswith] in H. apply andb_true_iff in H as [Hab Hp].
  destruct p as [|a' p'].
  - simpl in Hl. apply Ascii.eqb_eq in Hab. subst b.
    apply negb_true_iff in Hl.
    destruct (rstrip_cons_nonspace a s Hl) as [r ->].
    cbn [startswith]. now rewrite Ascii.eqb_refl.
  - assert (Hr : startswith (rstrip s) (String a' p') = true)
      by (apply IH; assumption).
    rewrite rstrip_cons_nonempty
      by (eapply startswith_nonempty; [exact Hr|discriminate]).
    cbn [startswith]. cbn [startswith] in Hr. rewrite Hab. exact Hr.
Qed.

Lemma contains_nonempty (p s : string) :
  contains p s = true -> p <> EmptyString -> s <> EmptyString.
Proof.
  destruct s; simpl; [|congruence].
  rewrite orb_false_r. apply startswith_nonempty.
Qed.

(** An occurrence that ends in a character [rstrip] keeps is kept. *)
Lemma contains_rstrip (p s : string) :
  p <> EmptyString -> nonspace (last p) = true ->
  contains p s = true -> contains p (rstrip s) = true.
Proof.
  intros Hp Hl. induction s as [|c s IH]; intros H.
  - exfalso. now apply (contains_nonempty p EmptyString).
  - cbn [contains] in H. apply orb_true_iff in H as [H|H].
    + apply (startswith_rstrip _ _ Hl) in H.
      destruct (rstrip (String c s)); cbn [contains]; now rewrite H.
    + specialize (IH H).
      rewrite rstrip_cons_nonempty
        by (eapply contains_nonempty; [exact IH|exact Hp]).
      cbn [contains]. rewrite IH. apply orb_true_r.
Qed.

End StrFacts.

(** ** The decorator scanner *)

Lemma strip_route_ok (l : string) :
  Str.startswith l "@" = true -> Str.contains route_marker l = true ->
  route_ok (Str.strip l).
Proof.
  intros Hat Hm.
  destruct (StrFacts.startswith_at l Hat) as [s ->].
  unfold Str.strip. rewrite StrFacts.lstrip_nonspace by reflexivity.
  destruct (StrFacts.rstrip_cons_nonspace "@" s eq_refl) as [r Hr].
  assert (Hne : Str.rstrip (String "@" s) <> EmptyString)
    by (rewrite Hr; discriminate).
  repeat split.
  - now rewrite Hr.
  - apply StrFacts.contains_rstrip; [discriminate|reflexivity|exact Hm].
  - unfold Str.strip. rewrite Hr, StrFacts.lstrip_nonspace by reflexivity.
    rewrite <- Hr. apply StrFacts.rstrip_idempotent.
  - now rewrite Hr.
  - now apply StrFacts.last_rstrip.
Qed.

Lemma scan_back_ok (above : list string) : Forall route_ok (scan_back above).
Proof.
  induction above as [|l above IH]; cbn [scan_back]; [constructor|].
  destruct (Str.startswith l "@") eqn:Hat; [|constructor].
  destruct (Str.contains route_marker l) eqn:Hm; cbn [app]; [|exact IH].
  constructor; [now apply strip_route_ok|exact IH].
Qed.

Lemma scan_back_decorators (decs above : list string) :
  Forall (fun l => Str.startswith l "@" = true) decs ->
  scan_back (decs ++ above)
  = map Str.strip (filter (Str.contains route_marker) decs)
    ++ scan_back above.
Proof.
  induction 1 as [|l decs Hl _ IH]; [reflexivity|].
  cbn [app scan_back filter]. rewrite Hl, IH.
  destruct (Str.contains route_marker l); reflexivity.
Qed.

Lemma scan_back_stops (pre : list string) :
  stops_scan pre -> scan_back (rev pre) = [].
Proof.
  unfold stops_scan. destruct (rev pre) as [|l above]; [reflexivity|].
  intros H. cbn [scan_back]. now rewrite H.
Qed.

Lemma getitem_nth {A : Type} (l : list A) (i : nat) (x : A) :
  nth_error l i = Some x -> getitem l (Z.of_nat i) = Ok x.
Proof.
  intros H. unfold getitem.
  destruct (Z.ltb_spec (Z.of_nat i) 0) as [E|E]; [lia|].
  destruct (Z.ltb_spec (Z.of_nat i) 0); [lia|].
  now rewrite Nat2Z.id, H.
Qed.

Lemma getitem_past_end {A : Type} (l : list A) (i : Z) :
  Z.of_nat (List.length l) <= i -> getitem l i = Raise IndexError.
Proof.
  intros H. unfold getitem.
  destruct (Z.ltb_spec i 0) as [E|E]; [lia|].
  destruct (Z.ltb_spec i 0); [lia|].
  destruct (nth_error l (Z.to_nat i)) eqn:N; [|reflexivity].
  assert (nth_error l (Z.to_nat i) <> None) as Hn by congruence.
  apply nth_error_Some in Hn. lia.
Qed.

(** One pass moves the index down by one and keeps it above zero. *)
Lemma loop_body_decreases (contents : list string) (l : Z)
  (r : list string) (l' : Z) (r' : list string) :
  loop_body contents l r = Continue l' r' -> l' = l - 1 /\ 0 <= l'.
Proof.
  unfold loop_body. destruct (Z.ltb_spec (l - 1) 0) as [E|E]; [discriminate|].
  destruct (getitem contents (l - 1)); [|discriminate].
  destruct (Str.startswith a "@"); [|discriminate].
  destruct (Str.contains ".route(" a); intros H; inversion H; lia.
Qed.

(** The loop started at index [i], at most the length of the file: it ends
    within [i + 1] passes, with the routes of the [i] lines above. *)
Lemma while_true_scan (contents : list string) (i : nat) :
  (i <= List.length contents)%nat ->
  forall (routes : list string) (fuel : nat), (i < fuel)%nat ->
  while_true fuel contents (Z.of_nat i) routes
  = Some (Ok (routes ++ scan_back (rev (firstn i contents)))).
Proof.
  induction i as [|i IH]; intros Hi routes fuel Hf;
    (destruct fuel as [|fuel]; [lia|]); cbn [while_true].
  - unfold loop_body. change (Z.of_nat 0 - 1 <? 0) with true.
    cbn. now rewrite app_nil_r.
  - destruct (nth_error contents i) as [x|] eqn:N;
      [|apply nth_error_None in N; lia].
    assert (Hfirst : firstn (S i) contents = firstn i contents ++ [x]).
    { clear - N. revert contents N.
      induction i as [|i IH]; intros [|y c] N; try discriminate.
      - now inversion N.
      - cbn [firstn app]. f_equal. now apply IH. }
    rewrite Hfirst, rev_app_distr. cbn [rev app scan_back].
    unfold loop_body.
    replace (Z.of_nat (S i) - 1) with (Z.of_nat i) by lia.
    destruct (Z.ltb_spec (Z.of_nat i) 0) as [E|E]; [lia|].
    rewrite (getitem_nth _ _ _ N).
    destruct (Str.startswith x "@"); [|now rewrite app_nil_r].
    fold route_marker.
    destruct (Str.contains route_marker x).
    + rewrite IH by lia. now rewrite <- app_assoc.
    + rewrite IH by lia. reflexivity.
Qed.

(** The loop started past the end of the file raises on its first pass. *)
Lemma while_true_past_end (contents : list string) (l : Z)
  (routes : list string) (fuel : nat) :
  Z.of_nat (List.length contents) < l ->
  while_true (S fuel) contents l routes = Some (Raise IndexError).
Proof.
  intros H. cbn [while_true]. unfold loop_body.
  destruct (Z.ltb_spec (l - 1) 0) as [E|E]; [lia|].
  now rewrite getitem_past_end by lia.
Qed.

(** The loop started below zero stops at once. *)
Lemma while_true_negative (contents : list string) (l : Z)
  (routes : list string) (fuel : nat) :
  l <= 0 -> while_true (S fuel) contents l routes = Some (Ok routes).
Proof.
  intros H. cbn [while_true]. unfold loop_body.
  destruct (Z.ltb_spec (l - 1) 0) as [E|E]; [reflexivity|lia].
Qed.

(** What [get_routes] returns, for every bound that is large enough. *)
Lemma get_routes_fuel_enough (contents : list string) (lineno : Z)
  (fuel : nat) :
  (Z.to_nat (lineno - 1) < fuel)%nat ->
  get_routes_fuel fuel contents lineno
  = Some (if Z.of_nat (List.length contents) <? lineno - 1
          then Raise IndexError
          else Ok (scan_back
                     (rev (firstn (Z.to_nat (lineno - 1)) contents)))).
Proof.
  intros Hf. unfold get_routes_fuel.
  destruct fuel as [|fuel]; [lia|].
  destruct (Z.ltb_spec (Z.of_nat (List.length contents)) (lineno - 1))
    as [E|E].
  - apply while_true_past_end. lia.
  - destruct (Z.le_gt_cases (lineno - 1) 0) as [Hn|Hp].
    + rewrite while_true_negative by exact Hn.
      replace (Z.to_nat (lineno - 1)) with O by lia. reflexivity.
    + rewrite <- (Z2Nat.id (lineno - 1)) at 1 by lia.
      rewrite while_true_scan by lia. reflexivity.
Qed.

Lemma get_routes_scan (contents : list string) (lineno : Z) :
  get_routes contents lineno
  = if Z.of_nat (List.length contents) <? lineno - 1
    then Raise IndexError
    else Ok (scan_back (rev (firstn (Z.to_nat (lineno - 1)) contents))).
Proof.
  unfold get_routes. rewrite get_routes_fuel_enough by lia. reflexivity.
Qed.

Lemma get_routes_ok (contents : list string) (lineno : Z)
  (routes : list string) :
  get_routes contents lineno = Ok routes -> Forall route_ok routes.
Proof.
  rewrite get_routes_scan.
  destruct (Z.of_nat (List.length contents) <? lineno - 1); [discriminate|].
  intros H. inversion H. apply scan_back_ok.
Qed.

(** C1, as stated, fails: a start index at the end of the list makes
    [contents[lineno]] raise.  Here the file has one line and the
    definition is said to be on line 3, so the scan starts at index 1. *)
Lemma get_routes_raises_past_end :
  get_routes [line "def f():"] 3 = Raise IndexError
  /\ ~ (exists routes, get_routes [line "def f():"] 3 = Ok routes).
Proof.
  assert (H : get_routes [line "def f():"] 3 = Raise IndexError)
    by (vm_compute; reflexivity).
  split; [exact H|]. intros [routes Hr]. rewrite H in Hr. discriminate.
Qed.

(** C1, amended: [get_routes] returns a list exactly when the start index
    [lineno - 2] is below the length of [contents]; that list is empty when
    the start index is negative; and when the start index is at or past the
    end of the list, [IndexError] is raised. *)
Theorem get_routes_returns_iff_start_in_range
  (contents : list string) (lineno : Z) :
  ((exists routes, get_routes contents lineno = Ok routes)
   <-> lineno - 2 < Z.of_nat (List.length contents))
  /\ (lineno - 2 < 0 -> get_routes contents lineno = Ok [])
  /\ (Z.of_nat (List.length contents) <= lineno - 2 ->
      get_routes contents lineno = Raise IndexError).
Proof.
  rewrite get_routes_scan.
  destruct (Z.ltb_spec (Z.of_nat (List.length contents)) (lineno - 1))
    as [E|E]; (split; [split|split]); intros H; try lia.
  - destruct H as [routes H]. discriminate.
  - reflexivity.
  - eexists. reflexivity.
  - replace (Z.to_nat (lineno - 1)) with O by lia. reflexivity.
Qed.

Lemma get_routes_returns_iff_start_in_range_witness :
  (exists routes,
      get_routes [line "@app.route('/x')"; line "def handler():"] 2
      = Ok routes)
  /\ get_routes [line "def f():"] 1 = Ok []
  /\ get_routes [line "def f():"] 3 = Raise IndexError.
Proof.
  split; [|split].
  - apply (proj1 (get_routes_returns_iff_start_in_range
                    [line "@app.route('/x')"; line "def handler():"] 2)).
    simpl. lia.
  - apply (proj1 (proj2 (get_routes_returns_iff_start_in_range
                           [line "def f():"] 1))).
    lia.
  - apply (proj2 (proj2 (get_routes_returns_iff_start_in_range
                           [line "def f():"] 3))).
    simpl. lia.
Defined.

(** C2: when the definition on line [L] has, right above it, the lines
    [decs], all starting with '@', and the scan can go no further up (the
    file starts there, or the line above [decs] does not start with '@'),
    [get_routes] returns the stripped text of the lines of [decs] that
    contain '.route(', nearest to the definition first: as many strings as
    there are such lines.  Lines of [decs] without the substring are
    passed over, and nothing above the line that ends the run is
    collected, whatever it is. *)
Theorem get_routes_collects_contiguous_routes
  (pre decs rest : list string) :
  Forall (fun l => Str.startswith l "@" = true) decs ->
  stops_scan pre ->
  let L := Z.of_nat (List.length pre + List.length decs) + 1 in
  let matching := filter (Str.contains route_marker) (rev decs) in
  get_routes (pre ++ decs ++ rest) L = Ok (map Str.strip matching)
  /\ (forall routes, get_routes (pre ++ decs ++ rest) L = Ok routes ->
      List.length routes
      = List.length (filter (Str.contains route_marker) decs)).
Proof.
  intros Hd Hp L matching.
  assert (H : get_routes (pre ++ decs ++ rest) L = Ok (map Str.strip matching)).
  { rewrite get_routes_scan. subst L.
    destruct (Z.ltb_spec
                (Z.of_nat (List.length (pre ++ decs ++ rest)))
                (Z.of_nat (List.length pre + List.length decs) + 1 - 1))
      as [E|E].
    - rewrite !length_app in E. lia.
    - replace (Z.to_nat (Z.of_nat (List.length pre + List.length decs) + 1 - 1))
        with (List.length (pre ++ decs) + 0)%nat
        by (rewrite length_app; lia).
      rewrite app_assoc, firstn_app_2. cbn [firstn].
      rewrite app_nil_r, rev_app_distr.
      rewrite scan_back_decorators by (apply Forall_rev; exact Hd).
      rewrite scan_back_stops by exact Hp.
      now rewrite app_nil_r. }
  split; [exact H|].
  intros routes Hr. rewrite H in Hr. inversion Hr. subst matching.
  rewrite length_map.
  rewrite <- (rev_involutive (filter (Str.contains route_marker) (rev decs))).
  rewrite length_rev. rewrite <- filter_rev, rev_involutive. reflexivity.
Qed.

Lemma get_routes_collects_contiguous_routes_witness :
  get_routes
    ([line "@app.route('/old')"; line "import flask"]
     ++ [line "@app.route('/x')"; line "@login_required";
         line "@app.route('/y', methods=['POST'])  "]
     ++ [line "def handler():"; line "    return 1"])
    6
  = Ok ["@app.route('/y', methods=['POST'])"; "@app.route('/x')"].
Proof.
  apply (get_routes_collects_contiguous_routes
           [line "@app.route('/old')"; line "import flask"]
           [line "@app.route('/x')"; line "@login_required";
            line "@app.route('/y', methods=['POST'])  "]
           [line "def handler():"; line "    return 1"]).
  - repeat constructor.
  - reflexivity.
Defined.

(** C8: [get_routes] terminates on every input.  Each pass of the loop
    that goes on to another lowers the index by one and leaves it at zero
    or above, and for every list of lines and every integer [lineno] the
    loop ends within [max (lineno - 1) 0 + 1] passes: with any bound above
    [lineno - 1] it has returned a list or raised [IndexError], which is
    what [get_routes] gives. *)
Theorem get_routes_terminates (contents : list string) (lineno : Z) :
  (forall l r l' r',
      loop_body contents l r = Continue l' r' -> l' = l - 1 /\ 0 <= l')
  /\ exists outcome,
      get_routes contents lineno = outcome
      /\ (outcome = Raise IndexError \/ exists routes, outcome = Ok routes)
      /\ forall fuel, (Z.to_nat (lineno - 1) < fuel)%nat ->
                      get_routes_fuel fuel contents lineno = Some outcome.
Proof.
  split; [apply loop_body_decreases|].
  eexists. split; [apply get_routes_scan|]. split.
  - destruct (Z.of_nat (List.length contents) <? lineno - 1);
      [now left|right; eexists; reflexivity].
  - intros fuel Hf. now apply get_routes_fuel_enough.
Qed.

Lemma get_routes_terminates_witness :
  get_routes_fuel 2 [line "@app.route('/x')"; line "def handler():"] 2
  = Some (Ok ["@app.route('/x')"]).
Proof.
  destruct (get_routes_terminates
              [line "@app.route('/x')"; line "def handler():"] 2)
    as [_ [outcome [Hg [_ Hf]]]].
  rewrite (Hf 2%nat) by (simpl; lia).
  rewrite <- Hg. reflexivity.
Defined.

(** ** The tree walker as a loop over the analyzed files *)

(** The loop over the items of [module_data] adds the records of the file
    to the entry of [full_path], or raises what [get_routes] raises. *)
Lemma items_loop (self : Testable) (full_path : string)
  (contents : list string) (items : list (string * pyclbr_obj)) :
  forall (results : ResultMapping) (old : list Result),
  Dict.get full_path results = Some old ->
  for_each (visit_item self full_path contents) items results
  = (rs <- records_of self full_path contents items ;;
     Ok (Dict.set full_path (old ++ rs) results)).
Proof.
  induction items as [|[key o] items IH]; intros results old Hget.
  - cbn [for_each records_of bind].
    now rewrite app_nil_r, DictFacts.set_get.
  - cbn [for_each records_of]. unfold visit_item at 1, retained.
    destruct (Str.startswith (file o) (top_dir self)); cbn [negb andb];
      [|cbn [bind]; now apply IH].
    destruct (String.eqb (file o) full_path); cbn [negb];
      [|cbn [bind]; now apply IH].
    unfold Dict.getitem. rewrite Hget. cbn [bind].
    destruct (get_routes contents (lineno o)) as [r|e]; cbn [bind];
      [|reflexivity].
    rewrite DictFacts.update_set, removelast_last.
    rewrite (IH _ (old ++ [set_routes (Result_init o None) r]))
      by apply DictFacts.get_set_same.
    destruct (records_of self full_path contents items) as [rs|e];
      cbn [bind]; [|reflexivity].
    rewrite DictFacts.set_set, <- app_assoc. reflexivity.
Qed.

Lemma visit_filename_visit (W : World) (self : Testable)
  (extensions : list string) (parent_dir : string)
  (results : ResultMapping) (filename : string) :
  visit_filename W self extensions parent_dir results filename
  = if candidate W extensions filename
    then visit W self results (parent_dir, filename)
    else Ok results.
Proof.
  unfold visit_filename, candidate, visit, path_of. cbn [fst snd].
  destruct (String.eqb filename (dunder_file W)); cbn [negb andb];
    [reflexivity|].
  destruct (Str.endswith_any filename extensions); [|reflexivity].
  destruct (os_path_splitext W filename) as [fn ext]. cbn [fst].
  set (full_path := os_path_join W parent_dir filename).
  destruct (open_readlines W full_path) as [contents|e]; cbn [bind];
    [|reflexivity].
  destruct (pyclbr_readmodule_ex W fn [parent_dir]) as [items|e];
    cbn [bind]; [|reflexivity].
  unfold Dict.mem.
  destruct (Dict.get full_path results) as [old|] eqn:G; cbn [negb].
  - now apply items_loop.
  - rewrite (items_loop _ _ _ _ _ []) by apply DictFacts.get_set_same.
    destruct (records_of self full_path contents items); cbn [bind app];
      [|reflexivity].
    now rewrite DictFacts.set_set.
Qed.

(** [find] is the loop of [visit] over the analyzed files. *)
Lemma find_in_visits (W : World) (self : Testable)
  (extensions : list string) :
  find_in W self extensions
  = for_each (visit W self) (visits W self extensions) [].
Proof.
  unfold find_in, visits. rewrite for_each_flat_map.
  apply for_each_ext. intros [[parent_dir sub_dirs] filenames] s _.
  unfold visit_dir. rewrite for_each_map, <- for_each_filter.
  apply for_each_ext. intros f s' _. apply visit_filename_visit.
Qed.

Lemma find_find_in (W : World) (self : Testable)
  (extensions : option (list string)) :
  find W self extensions
  = find_in W self (extensions_or_default extensions).
Proof. destruct extensions; reflexivity. Qed.

(** The analyzed files are the files of the walk that pass the tests of
    lines 90 and 92. *)
Lemma in_visits (W : World) (self : Testable) (extensions : list string)
  (v : string * string) :
  In v (visits W self extensions)
  <-> exists parent_dir sub_dirs filenames,
      In (parent_dir, sub_dirs, filenames) (os_walk W (top_dir self))
      /\ In (snd v) filenames
      /\ candidate W extensions (snd v) = true
      /\ fst v = os_path_abspath W parent_dir.
Proof.
  unfold visits. rewrite in_flat_map. split.
  - intros [[[parent_dir sub_dirs] filenames] [Hw Hv]].
    apply in_map_iff in Hv as [f [<- Hf]]. apply filter_In in Hf as [Hf Hc].
    exists parent_dir, sub_dirs, filenames. auto.
  - intros (parent_dir & sub_dirs & filenames & Hw & Hf & Hc & Hp).
    exists (parent_dir, sub_dirs, filenames). split; [exact Hw|].
    apply in_map_iff. exists (snd v). split.
    + destruct v. cbn [fst snd] in *. now subst.
    + apply filter_In. auto.
Qed.

(** What the records of a file are made of. *)
Lemma records_of_spec (self : Testable) (full_path : string)
  (contents : list string) (items : list (string * pyclbr_obj)) :
  forall rs, records_of self full_path contents items = Ok rs ->
  map obj rs
  = map snd (filter (fun it => retained self full_path (snd it)) items)
  /\ Forall (fun r => get_routes contents (lineno (obj r)) = Ok (routes r)
                      /\ obj_type r = class_name (cls (obj r))) rs.
Proof.
  induction items as [|[key o] items IH]; intros rs H; cbn [records_of] in H.
  - inversion H. split; [reflexivity|constructor].
  - cbn [filter snd].
    destruct (retained self full_path o); [|now apply IH].
    destruct (get_routes contents (lineno o)) as [r|] eqn:G;
      [|discriminate]. cbn [bind] in H.
    destruct (records_of self full_path contents items) as [rs'|];
      [|discriminate]. cbn [bind] in H. inversion H. subst rs.
    destruct (IH rs' eq_refl) as [IH1 IH2].
    split; [cbn [map]; now rewrite IH1|].
    constructor; [|exact IH2]. split; [exact G|reflexivity].
Qed.

(** What a visit does to the mapping. *)
Lemma visit_spec (W : World) (self : Testable)
  (results results' : ResultMapping) (v : string * string) :
  visit W self results v = Ok results' ->
  exists contents items rs,
    open_readlines W (path_of W v) = Ok contents
    /\ pyclbr_readmodule_ex W (fst (os_path_splitext W (snd v))) [fst v]
       = Ok items
    /\ records_of self (path_of W v) contents items = Ok rs
    /\ results'
       = Dict.set (path_of W v)
           (match Dict.get (path_of W v) results with
            | Some old => old ++ rs
            | None => rs
            end) results.
Proof.
  unfold visit.
  destruct (open_readlines W (path_of W v)) as [contents|] eqn:Ho;
    [|discriminate].
  destruct (pyclbr_readmodule_ex W _ _) as [items|] eqn:Hm; [|discriminate].
  cbn [bind].
  destruct (records_of self (path_of W v) contents items) as [rs|] eqn:Hr;
    [|discriminate].
  cbn [bind]. intros H. inversion H. exists contents, items, rs.
  repeat split; assumption.
Qed.

Lemma visit_preserves (W : World) (self : Testable)
  (done : list (string * string)) (results results' : ResultMapping)
  (v : string * string) :
  visited_inv W self done results ->
  visit W self results v = Ok results' ->
  visited_inv W self (done ++ [v]) results'.
Proof.
  intros (Hnd & Hkeys & Hrec) Hv.
  destruct (visit_spec _ _ _ _ _ Hv)
    as (contents & items & rs & Ho & Hm & Hrs & ->).
  split; [|split].
  - now apply DictFacts.NoDup_keys_set.
  - intros p. rewrite DictFacts.in_keys_set, Hkeys, map_app, in_app_iff.
    cbn [map In]. intuition.
  - intros k recs r Hin Hr.
    assert (Hnew : In r rs ->
                   exists v', In v' (done ++ [v])
                              /\ from_visit W self (path_of W v) r v').
    { intros Hr'. exists v. split; [apply in_or_app; right; now left|].
      destruct (records_of_spec _ _ _ _ _ Hrs) as [Hobj Hall].
      rewrite Forall_forall in Hall. destruct (Hall r Hr') as [Hg Ht].
      assert (Ho' : In (obj r) (map obj rs)) by now apply in_map.
      rewrite Hobj in Ho'. apply in_map_iff in Ho' as [[key o] [Heq Hit]].
      cbn [snd] in Heq. subst o. apply filter_In in Hit as [Hit Hret].
      split; [reflexivity|]. now exists contents, items, key. }
    assert (Hold : forall recs', In (k, recs') results -> In r recs' ->
                   exists v', In v' (done ++ [v]) /\ from_visit W self k r v').
    { intros recs' Hin' Hr'. destruct (Hrec _ _ _ Hin' Hr') as [v' [Hd Hf]].
      exists v'. split; [apply in_or_app; now left|exact Hf]. }
    apply DictFacts.in_set in Hin as [[-> ->]|Hin]; [|now apply (Hold recs)].
    destruct (Dict.get (path_of W v) results) as [old|] eqn:G;
      [|now apply Hnew].
    apply in_app_or in Hr as [Hr|Hr]; [|now apply Hnew].
    apply (Hold old); [now apply DictFacts.get_in|exact Hr].
Qed.

(** The invariant holds of what [find] returns. *)
Lemma find_visited_inv (W : World) (self : Testable)
  (extensions : option (list string)) (results : ResultMapping) :
  find W self extensions = Ok results ->
  visited_inv W self
    (visits W self (extensions_or_default extensions)) results.
Proof.
  rewrite find_find_in, find_in_visits.
  apply for_each_invariant.
  - split; [constructor|]. split; [reflexivity|]. intros k recs r [].
  - intros done v rest s s' _. apply visit_preserves.
Qed.

(** ** The tree walker and the reporter *)

(** C5: in every mapping [find] returns, the [file] of every record is
    the key of the entry that holds it, and that file is inside the root:
    a descriptor that [pyclbr] lists for the analyzed file but that comes
    from another file, or from outside the root, is in no entry. *)
Theorem find_records_under_own_file (W : World) (self : Testable)
  (extensions : option (list string)) (results : ResultMapping)
  (k : string) (recs : list Result) (r : Result) :
  find W self extensions = Ok results ->
  In (k, recs) results -> In r recs ->
  file (obj r) = k
  /\ Str.startswith (file (obj r)) (top_dir self) = true
  /\ exists v, In v (visits W self (extensions_or_default extensions))
               /\ from_visit W self k r v.
Proof.
  intros Hf Hk Hr. apply find_visited_inv in Hf as (_ & _ & Hrec).
  destruct (Hrec _ _ _ Hk Hr) as [v [Hv Hfrom]].
  pose proof Hfrom as (_ & _ & _ & _ & _ & _ & _ & Hret & _).
  apply andb_true_iff in Hret as [Hroot Hfile].
  apply String.eqb_eq in Hfile. eauto.
Qed.

Lemma find_records_under_own_file_witness :
  file Examples.handler = "/srv/app/views.py"
  /\ Str.startswith (file Examples.handler) "/srv/app" = true.
Proof.
  pose proof
    (find_records_under_own_file Examples.app_import
       (Testable_init Examples.app_import "/srv/app") None
       [("/srv/app/views.py",
         [{| obj := {| file := "/srv/app/views.py"; lineno := 5;
                       module := "views"; name := "handler";
                       cls := Function |};
             routes := ["@app.route('/x')"]; obj_type := "Function" |}]);
        ("/srv/app/util.py",
         [{| obj := Examples.helper; routes := [];
             obj_type := "Function" |}])]
       "/srv/app/views.py" _ _
       eq_refl (or_introl eq_refl) (or_introl eq_refl)) as [H1 [H2 _]].
  split; [exact H1|exact H2].
Defined.

(** C10: every route that [get_routes] collects, and so every string in
    the [routes] of a record of a mapping [find] returns, starts with
    '@', contains '.route(' and is its own stripped form, with a first and
    a last character that are not whitespace. *)
Theorem routes_invariant :
  (forall contents lineno routes route,
      get_routes contents lineno = Ok routes -> In route routes ->
      route_ok route)
  /\ (forall W self extensions results k recs r route,
         find W self extensions = Ok results ->
         In (k, recs) results -> In r recs -> In route (routes r) ->
         route_ok route).
Proof.
  assert (G : forall contents lineno routes route,
             get_routes contents lineno = Ok routes -> In route routes ->
             route_ok route).
  { intros contents lineno routes route H.
    apply get_routes_ok in H. rewrite Forall_forall in H. apply H. }
  split; [exact G|].
  intros W self extensions results k recs r route Hf Hk Hr.
  apply find_visited_inv in Hf as (_ & _ & Hrec).
  destruct (Hrec _ _ _ Hk Hr)
    as (v & _ & _ & contents & items & key & _ & _ & _ & _ & Hg & _).
  now apply (G contents (lineno (obj r))).
Qed.

Lemma routes_invariant_witness :
  route_ok "@app.route('/y', methods=['POST'])"
  /\ route_ok "@app.route('/x')".
Proof.
  split.
  - apply (proj1 routes_invariant
             [line "  "; line "@app.route('/y', methods=['POST'])   ";
              line "def create():"]
             3 ["@app.route('/y', methods=['POST'])"]);
      [reflexivity|now left].
  - apply (proj2 routes_invariant
             Examples.app (Testable_init Examples.app "/srv/app") None
             [("/srv/app/views.py",
               [{| obj := Examples.handler;
                   routes := ["@app.route('/x')"];
                   obj_type := "Function" |}])]
             "/srv/app/views.py"
             [{| obj := Examples.handler; routes := ["@app.route('/x')"];
                 obj_type := "Function" |}]
             {| obj := Examples.handler; routes := ["@app.route('/x')"];
                obj_type := "Function" |});
      [reflexivity|now left|now left|now left].
Defined.

(** C4, as stated, fails: run as [python testable.py] in its own
    directory, the analyzer finds [testable.py] under the root, with a
    recognized extension, and gives it no key. *)
Lemma find_gives_no_key_to_file_named_dunder_file :
  In "/opt/testable/testable.py"
     (matching_files Examples.own_dir_bare
        (Testable_init Examples.own_dir_bare "/opt/testable")
        default_extensions)
  /\ exists results,
      find Examples.own_dir_bare
        (Testable_init Examples.own_dir_bare "/opt/testable") None
      = Ok results
      /\ ~ In "/opt/testable/testable.py" (Dict.keys results).
Proof.
  split; [now left|]. exists []. split; [reflexivity|]. intros [].
Qed.

(** C4, amended: the keys of the mapping [find] returns are distinct
    full paths of files of the walk whose name ends with a recognized
    extension, so that a file whose name ends with no recognized
    extension is no key; and every file of the walk whose name ends with
    a recognized extension and is not the name of the analyzer's own
    script is a key, with the empty list for its entry when [pyclbr]
    lists for it no descriptor that is declared in the file and inside
    the root.  Of the files that bear the name of the script nothing is
    said. *)
Theorem find_keys_are_matching_files (W : World) (self : Testable)
  (extensions : option (list string)) (results : ResultMapping) :
  find W self extensions = Ok results ->
  NoDup (Dict.keys results)
  /\ (forall p,
         In p (Dict.keys results) ->
         exists parent_dir sub_dirs filenames filename,
           In (parent_dir, sub_dirs, filenames) (os_walk W (top_dir self))
           /\ In filename filenames
           /\ Str.endswith_any filename (extensions_or_default extensions)
              = true
           /\ p = os_path_join W (os_path_abspath W parent_dir) filename)
  /\ (forall parent_dir sub_dirs filenames filename,
         In (parent_dir, sub_dirs, filenames) (os_walk W (top_dir self)) ->
         In filename filenames ->
         Str.endswith_any filename (extensions_or_default extensions)
         = true ->
         last_component filename <> last_component (dunder_file W) ->
         In (os_path_join W (os_path_abspath W parent_dir) filename)
            (Dict.keys results))
  /\ (forall p recs,
         In (p, recs) results ->
         (forall parent_dir sub_dirs filenames filename items key o,
             In (parent_dir, sub_dirs, filenames)
                (os_walk W (top_dir self)) ->
             In filename filenames ->
             os_path_join W (os_path_abspath W parent_dir) filename = p ->
             pyclbr_readmodule_ex W (fst (os_path_splitext W filename))
               [os_path_abspath W parent_dir] = Ok items ->
             In (key, o) items -> retained self p o = false) ->
         recs = []).
Proof.
  intros Hf. apply find_visited_inv in Hf as (Hnd & Hkeys & Hrec).
  split; [exact Hnd|]. split; [|split].
  - intros p Hp. apply Hkeys, in_map_iff in Hp as [v [<- Hv]].
    apply in_visits in Hv as (parent_dir & sub_dirs & filenames
                              & Hw & Hin & Hc & Hp).
    exists parent_dir, sub_dirs, filenames, (snd v).
    unfold candidate in Hc. apply andb_true_iff in Hc as [_ He].
    unfold path_of. rewrite Hp. auto.
  - intros parent_dir sub_dirs filenames filename Hw Hin He Hname.
    apply Hkeys, in_map_iff.
    exists (os_path_abspath W parent_dir, filename).
    split; [reflexivity|]. apply in_visits.
    exists parent_dir, sub_dirs, filenames. cbn [fst snd].
    repeat split; try assumption.
    unfold candidate. rewrite He.
    destruct (String.eqb_spec filename (dunder_file W)) as [Heq|];
      [|reflexivity].
    exfalso. apply Hname. now rewrite Heq.
  - intros p recs Hin Hnone.
    destruct recs as [|r recs]; [reflexivity|]. exfalso.
    destruct (Hrec p _ r Hin (or_introl eq_refl))
      as (v & Hv & Hp & contents & items & key & _ & Hm & Hit & Hret & _).
    apply in_visits in Hv as (parent_dir & sub_dirs & filenames
                              & Hw & Hf & _ & Hdir).
    unfold path_of in Hp. rewrite Hdir in Hp, Hm.
    rewrite (Hnone _ _ _ _ items key (obj r) Hw Hf Hp Hm Hit) in Hret.
    discriminate.
Qed.

Lemma find_keys_are_matching_files_witness :
  In "/srv/app/models.py"
     (Dict.keys
        [("/srv/app/models.py",
          [{| obj := Cases.user; routes := []; obj_type := "Class" |};
           {| obj := Cases.load; routes := ["@app.route('/load')"];
              obj_type := "Function" |}])]).
Proof.
  apply (proj1 (proj2 (proj2
    (find_keys_are_matching_files Cases.models
       (Testable_init Cases.models "/srv/app") None
       [("/srv/app/models.py",
         [{| obj := Cases.user; routes := []; obj_type := "Class" |};
          {| obj := Cases.load; routes := ["@app.route('/load')"];
             obj_type := "Function" |}])]
       eq_refl)))
    "/srv/app" [] ["models.py"; "README.md"] "models.py").
  - now left.
  - now left.
  - reflexivity.
  - vm_compute. discriminate.
Defined.

(** C6 fails on the code: the test of line 90 compares the bare file name
    that [os.walk] yields with [__file__].  When [__file__] holds the
    script's path, no file name is equal to it, and the analyzer's own
    source file, met under the root, gets an entry and is analyzed. *)
Theorem find_analyzes_own_file_when_dunder_file_is_a_path :
  dunder_file Examples.own_dir_path = "/opt/testable/testable.py"
  /\ find Examples.own_dir_path
       (Testable_init Examples.own_dir_path "/opt/testable") None
     = Ok [("/opt/testable/testable.py",
            [{| obj := {| file := "/opt/testable/testable.py"; lineno := 1;
                          module := "testable"; name := "Testable";
                          cls := Class |};
                routes := [];
                obj_type := "Class" |}])].
Proof. split; reflexivity. Qed.

(** *** Runs in one process *)

Lemma extends_refl (c : Process.Cache) : Process.extends c c.
Proof. intros k t H. exact H. Qed.

Lemma extends_trans (c1 c2 c3 : Process.Cache) :
  Process.extends c1 c2 -> Process.extends c2 c3 -> Process.extends c1 c3.
Proof. intros H12 H23 k t H. apply H23, H12, H. Qed.

(** A call of [readmodule_ex] that returned is answered alike, from the
    cache, ever after. *)
Lemma readmodule_ex_replays (P : Process.Pyclbr) (c c1 : Process.Cache)
  (modname : string) (path : list string) (t : Process.tree) :
  Process.caching P ->
  Process.readmodule_ex P c modname path = Ok (t, c1) ->
  Process.extends c c1
  /\ forall c2, Process.extends c1 c2 ->
                Process.readmodule_ex P c2 modname path = Ok (t, c2).
Proof.
  intros HP. unfold Process.readmodule_ex.
  destruct (Dict.get modname c) as [t0|] eqn:G.
  - intros H. inversion H. subst. split; [apply extends_refl|].
    intros c2 H2. now rewrite (H2 _ _ G).
  - intros H. destruct (HP _ _ _ _ _ G H) as [Hget Hext].
    split; [exact Hext|]. intros c2 H2. now rewrite (H2 _ _ Hget).
Qed.

Lemma for_each_replays {S A : Type}
  (body : S * Process.Cache -> A -> result (S * Process.Cache)) :
  Process.replays body ->
  Process.replays (fun state l => for_each body l state).
Proof.
  intros Hb l. induction l as [|x l IH]; intros s c s1 c1 H.
  - inversion H. subst. split; [apply extends_refl|reflexivity].
  - cbn [for_each] in H.
    destruct (body (s, c) x) as [[s' c']|] eqn:B; [|discriminate].
    cbn [bind] in H.
    destruct (Hb _ _ _ _ _ B) as [Hext Hre].
    destruct (IH _ _ _ _ H) as [Hext' Hre'].
    split; [eapply extends_trans; eassumption|].
    intros c2 H2. cbn [for_each].
    rewrite (Hre c2) by (eapply extends_trans; eassumption).
    cbn [bind]. now apply Hre'.
Qed.

Lemma visit_filename_replays (W : World) (P : Process.Pyclbr)
  (self : Testable) (extensions : list string) (parent_dir : string) :
  Process.caching P ->
  Process.replays (Process.visit_filename W P self extensions parent_dir).
Proof.
  intros HP filename results c results1 c1.
  unfold Process.visit_filename.
  destruct (String.eqb filename (dunder_file W)).
  { intros H. inversion H. subst. split; [apply extends_refl|reflexivity]. }
  destruct (Str.endswith_any filename extensions).
  2:{ intros H. inversion H. subst.
      split; [apply extends_refl|reflexivity]. }
  destruct (os_path_splitext W filename) as [fn ext].
  destruct (open_readlines W _) as [contents|]; [|discriminate].
  cbn [bind].
  destruct (Process.readmodule_ex P c fn [parent_dir])
    as [[module_data c']|] eqn:R; [|discriminate].
  cbn [bind].
  destruct (readmodule_ex_replays _ _ _ _ _ _ HP R) as [Hext Hre].
  destruct (for_each _ module_data _) as [results'|] eqn:L; [|discriminate].
  cbn [bind]. intros H. inversion H. subst.
  split; [exact Hext|]. intros c2 H2.
  rewrite (Hre c2 H2). cbn [bind]. now rewrite L.
Qed.

Lemma find_in_replays (W : World) (P : Process.Pyclbr) (self : Testable)
  (extensions : list string) (c c1 : Process.Cache)
  (results : ResultMapping) :
  Process.caching P ->
  Process.find_in W P self extensions c = Ok (results, c1) ->
  Process.extends c c1
  /\ forall c2, Process.extends c1 c2 ->
                Process.find_in W P self extensions c2 = Ok (results, c2).
Proof.
  intros HP. unfold Process.find_in.
  apply (for_each_replays (Process.visit_dir W P self extensions)).
  intros [[parent_dir sub_dirs] filenames]. unfold Process.visit_dir.
  apply (for_each_replays
           (Process.visit_filename W P self extensions
              (os_path_abspath W parent_dir))).
  now apply visit_filename_replays.
Qed.

(** A loop over the values of a dict that returns met descriptors only,
    and did with them what lines 104-111 do. *)
Lemma values_loop_descriptors (self : Testable) (full_path : string)
  (contents : list string) (t : Process.tree) :
  forall results results',
    for_each (Process.visit_value self full_path contents) t results
    = Ok results' ->
    exists items,
      Process.descriptors t = Ok items
      /\ for_each (visit_item self full_path contents) items results
         = Ok results'.
Proof.
  induction t as [|[key [o|dirs]] t IH]; intros results results' H.
  - exists []. split; [reflexivity|exact H].
  - cbn [for_each Process.visit_value] in H.
    destruct (visit_item self full_path contents results (key, o))
      as [results1|] eqn:V; [|discriminate].
    cbn [bind] in H. destruct (IH _ _ H) as (items & Hd & Hl).
    exists ((key, o) :: items). cbn [Process.descriptors].
    rewrite Hd. split; [reflexivity|]. cbn [for_each]. now rewrite V.
  - discriminate.
Qed.

(** A visit in a process that returns is the visit of the world observed
    from any cache that extends the one it left. *)
Lemma visit_filename_observed (W : World) (P : Process.Pyclbr)
  (self : Testable) (extensions : list string) (parent_dir : string)
  (results results1 : ResultMapping) (c c1 : Process.Cache)
  (filename : string) :
  Process.caching P ->
  Process.visit_filename W P self extensions parent_dir (results, c)
    filename = Ok (results1, c1) ->
  forall c2, Process.extends c1 c2 ->
    visit_filename (Process.observed W c2) self extensions parent_dir
      results filename = Ok results1.
Proof.
  intros HP H c2 H2. unfold Process.visit_filename in H.
  unfold visit_filename. cbn [Process.observed dunder_file os_path_splitext
    os_path_join open_readlines pyclbr_readmodule_ex].
  destruct (String.eqb filename (dunder_file W)); [now inversion H|].
  destruct (Str.endswith_any filename extensions); [|now inversion H].
  destruct (os_path_splitext W filename) as [fn ext].
  destruct (open_readlines W _) as [contents|]; [|discriminate].
  cbn [bind] in *.
  destruct (Process.readmodule_ex P c fn [parent_dir])
    as [[module_data c']|] eqn:R; [|discriminate].
  cbn [bind] in H.
  destruct (for_each _ module_data _) as [results'|] eqn:L; [|discriminate].
  cbn [bind] in H. inversion H. subst.
  destruct (readmodule_ex_replays _ _ _ _ _ _ HP R) as [_ Hre].
  specialize (Hre c2 H2). unfold Process.readmodule_ex in Hre.
  destruct (Dict.get fn c2) as [t|] eqn:G.
  - inversion Hre. subst t.
    destruct (values_loop_descriptors _ _ _ _ _ _ L) as (items & -> & Hl).
    cbn [bind]. exact Hl.
  - destruct (HP _ _ _ _ _ G Hre) as [Hget _]. congruence.
Qed.

(** The mapping a run in a process returns is the mapping [find] returns
    in the world observed from the cache the run left: what is proved of
    the mappings of [find] holds of it. *)
Lemma find_in_process_observed (W : World) (P : Process.Pyclbr)
  (self : Testable) (extensions : option (list string))
  (modules modules' : Process.Cache) (results : ResultMapping) :
  Process.caching P ->
  Process.find W P self extensions modules = Ok (results, modules') ->
  find (Process.observed W modules') self extensions = Ok results.
Proof.
  intros HP H. rewrite find_find_in.
  unfold Process.find, Process.find_in in H. unfold find_in.
  cbn [Process.observed os_walk].
  set (walk := os_walk W (top_dir self)) in *.
  assert (G : forall l s c s1 c1,
             for_each (Process.visit_dir W P self
                         (extensions_or_default extensions)) l (s, c)
             = Ok (s1, c1) ->
             forall c2, Process.extends c1 c2 ->
               for_each (visit_dir (Process.observed W c2) self
                           (extensions_or_default extensions)) l s
               = Ok s1).
  { assert (F : forall parent_dir l s c s1 c1,
               for_each (Process.visit_filename W P self
                           (extensions_or_default extensions) parent_dir)
                 l (s, c) = Ok (s1, c1) ->
               forall c2, Process.extends c1 c2 ->
                 for_each (visit_filename (Process.observed W c2) self
                             (extensions_or_default extensions) parent_dir)
                   l s = Ok s1).
    { intros parent_dir l. induction l as [|f l IH]; intros s c s1 c1 Hl c2 H2.
      - now inversion Hl.
      - cbn [for_each] in *.
        destruct (Process.visit_filename W P self _ parent_dir (s, c) f)
          as [[s' c']|] eqn:B; [|discriminate].
        cbn [bind] in Hl.
        assert (Hext : Process.extends c' c1).
        { exact (proj1 (for_each_replays _
                          (visit_filename_replays W P self _ parent_dir HP)
                          l s' c' s1 c1 Hl)). }
        rewrite (visit_filename_observed _ _ _ _ _ _ _ _ _ _ HP B c2)
          by (eapply extends_trans; eassumption).
        cbn [bind]. now apply (IH _ _ _ _ Hl). }
    intros l. induction l as [|[[parent_dir sub_dirs] filenames] l IH];
      intros s c s1 c1 Hl c2 H2.
    - now inversion Hl.
    - cbn [for_each] in *.
      destruct (Process.visit_dir W P self _ (s, c) _)
        as [[s' c']|] eqn:B; [|discriminate].
      cbn [bind] in Hl.
      assert (Hext : Process.extends c' c1).
      { refine (proj1 (for_each_replays
                         (Process.visit_dir W P self
                            (extensions_or_default extensions))
                         _ l s' c' s1 c1 Hl)).
        intros [[p sd] fs]. unfold Process.visit_dir.
        apply (for_each_replays
                 (Process.visit_filename W P self
                    (extensions_or_default extensions)
                    (os_path_abspath W p))).
        now apply visit_filename_replays. }
      unfold Process.visit_dir in B. unfold visit_dir at 1.
      cbn [Process.observed os_path_abspath].
      rewrite (F _ _ _ _ _ _ B c2) by (eapply extends_trans; eassumption).
      cbn [bind]. now apply (IH _ _ _ _ Hl). }
  apply (G walk [] modules results modules' H). apply extends_refl.
Qed.

Lemma reading_caching (W : World) : Process.caching (Process.reading W).
Proof.
  intros modules modname path t modules' Hmiss.
  cbn [Process.reading Process.read].
  destruct (pyclbr_readmodule_ex W modname path) as [items|];
    [|discriminate].
  cbn [bind]. intros H. inversion H. subst. split.
  - apply DictFacts.get_set_same.
  - intros k t0 Hk. rewrite DictFacts.get_set_other; [exact Hk|].
    intros ->. congruence.
Qed.

Lemma visit_dir_same_files (W1 W2 : World) (P : Process.Pyclbr)
  (self : Testable) (extensions : list string) :
  Process.same_files W1 W2 self extensions ->
  forall triple state,
    In triple (os_walk W1 (top_dir self)) ->
    Process.visit_dir W1 P self extensions state triple
    = Process.visit_dir W2 P self extensions state triple.
Proof.
  intros (Hd & Hw & Hfiles) [[parent_dir sub_dirs] filenames] state Hin.
  unfold Process.visit_dir. apply for_each_ext.
  intros f [results c] Hf.
  specialize (Hfiles _ _ _ _ Hin Hf). unfold candidate in Hfiles.
  unfold Process.visit_filename. rewrite <- Hd.
  destruct (String.eqb f (dunder_file W1)); [reflexivity|].
  destruct (Str.endswith_any f extensions); [|reflexivity].
  cbv zeta in Hfiles. destruct (Hfiles eq_refl) as (Ha & Hs & Hj & Ho).
  rewrite Ho, Hj, Hs, Ha. reflexivity.
Qed.

(** C7, as stated, fails: [pyclbr] answers from a cache that it keeps for
    the life of the process, under the bare module name.  One unchanged
    file system holds two trees, each with a [views.py].  A run over
    [/srv/app] in a fresh process gives the record of [handler]; the same
    run after one over [/srv/blog] in the same process is answered with
    the descriptors of the other [views.py], keeps none, and gives an
    empty entry. *)
Lemma find_output_depends_on_pyclbr_cache :
  exists modules after_app after_both,
    Process.find Cases.two_trees (Process.reading Cases.two_trees)
      (Testable_init Cases.two_trees "/srv/blog") None []
    = Ok ([("/srv/blog/views.py",
            [{| obj := Cases.index; routes := [];
                obj_type := "Function" |}])], modules)
    /\ Process.find Cases.two_trees (Process.reading Cases.two_trees)
         (Testable_init Cases.two_trees "/srv/app") None []
       = Ok ([("/srv/app/views.py",
               [{| obj := Examples.handler;
                   routes := ["@app.route('/x')"];
                   obj_type := "Function" |}])], after_app)
    /\ Process.find Cases.two_trees (Process.reading Cases.two_trees)
         (Testable_init Cases.two_trees "/srv/app") None modules
       = Ok ([("/srv/app/views.py", [])], after_both)
    /\ dumps [("/srv/app/views.py",
               [{| obj := Examples.handler;
                   routes := ["@app.route('/x')"];
                   obj_type := "Function" |}])]
       <> dumps [("/srv/app/views.py", [])].
Proof.
  do 3 eexists. repeat split; try (vm_compute; reflexivity).
  discriminate.
Qed.

(** C7, amended: a run of [find] that returns is repeated by the next
    run in the same process over the same unchanged tree: started with
    the cache the first run left, [find] returns the same mapping, hence
    the same document, and leaves the cache as it is.  And the outcome of
    a run is a function of the files of the tree [find] reads, of the
    order of the walk, of the cache of [pyclbr] at the start and of what
    [pyclbr] reads: two worlds that show the same files give, with the
    same [pyclbr] and the same cache, the same outcome. *)
Theorem find_repeats_in_process :
  (forall W P self extensions modules results modules',
      Process.caching P ->
      Process.find W P self extensions modules = Ok (results, modules') ->
      Process.find W P self extensions modules' = Ok (results, modules'))
  /\ (forall W1 W2 P self extensions modules,
         Process.same_files W1 W2 self
           (extensions_or_default extensions) ->
         Process.find W1 P self extensions modules
         = Process.find W2 P self extensions modules).
Proof.
  split.
  - intros W P self extensions modules results modules' HP H.
    unfold Process.find in *.
    destruct (find_in_replays _ _ _ _ _ _ _ HP H) as [_ Hre].
    apply Hre, extends_refl.
  - intros W1 W2 P self extensions modules H.
    unfold Process.find, Process.find_in.
    pose proof H as (_ & Hw & _). rewrite <- Hw.
    apply for_each_ext. intros triple state Hin.
    now apply visit_dir_same_files.
Qed.

Lemma find_repeats_in_process_witness :
  Process.find Cases.two_trees (Process.reading Cases.two_trees)
    (Testable_init Cases.two_trees "/srv/app") None
    [("views", [("handler", Process.Descriptor Examples.handler)])]
  = Ok ([("/srv/app/views.py",
          [{| obj := Examples.handler; routes := ["@app.route('/x')"];
              obj_type := "Function" |}])],
        [("views", [("handler", Process.Descriptor Examples.handler)])])
  /\ Process.find Cases.two_trees (Process.reading Cases.two_trees)
       (Testable_init Cases.two_trees "/srv/app") None []
     = Process.find Runs.two_trees_elsewhere
         (Process.reading Cases.two_trees)
         (Testable_init Cases.two_trees "/srv/app") None [].
Proof.
  split.
  - apply (proj1 find_repeats_in_process Cases.two_trees
             (Process.reading Cases.two_trees)
             (Testable_init Cases.two_trees "/srv/app") None []).
    + apply reading_caching.
    + reflexivity.
  - apply (proj2 find_repeats_in_process).
    split; [reflexivity|]. split; [reflexivity|].
    intros parent_dir sub_dirs filenames filename Hw Hf _.
    destruct Hw as [Hw|[]]. inversion Hw. subst.
    destruct Hf as [<-|[]]. repeat split.
Defined.





(** C3, as stated, fails: in the document for the end-to-end scenario the
    one object in the array of the file is not the record itself; its
    only field is named after the file. *)
Lemma analyze_entry_is_not_the_bare_record :
  exists j,
    analyze Examples.app "/srv/app" default_extensions
    = Ok (JObject [("/srv/app/views.py", JArray [j])])
    /\ ~ has_record_fields j
    /\ j <> JObject [("type", JString "Function");
                     ("name", JString "handler");
                     ("lineno", JInt 3);
                     ("routes", JArray [JString "@app.route('/x')"])].
Proof.
  eexists. split; [vm_compute; reflexivity|]. split.
  - intros [_ H]. specialize (proj2 (H "type")). cbn [field_names map fst In].
    intros G. destruct G as [G|G]; [now left|discriminate|exact G].
  - discriminate.
Qed.

(** C3, amended: the document maps each file path of the mapping, in the
    mapping's order, to an array with one object per record, in the
    records' order; each such object has exactly one field, named after
    the file path, whose value is an object with exactly the fields type,
    name, lineno and routes, [routes] being the array of the record's
    routes.  For the end-to-end scenario the array of the file holds the
    single object that maps the file's path to
    [{"type": "Function", "name": "handler", "lineno": 3,
      "routes": ["@app.route('/x')"]}]. *)
Theorem dumps_document :
  (forall W self extensions results,
      find W self extensions = Ok results ->
      exists entries,
        dumps results = JObject entries
        /\ map fst entries = Dict.keys results
        /\ forall path value,
            In (path, value) entries ->
            exists recs,
              In (path, recs) results
              /\ value = JArray (map default recs)
              /\ forall r, In r recs ->
                  exists fields,
                    default r = JObject [(path, fields)]
                    /\ has_record_fields fields
                    /\ fields
                       = JObject
                           [("type", JString (class_name (cls (obj r))));
                            ("name", JString (name (obj r)));
                            ("lineno", JInt (lineno (obj r)));
                            ("routes", JArray (map JString (routes r)))])
  /\ analyze Examples.app "/srv/app" default_extensions
     = Ok (JObject
             [("/srv/app/views.py",
               JArray
                 [JObject
                    [("/srv/app/views.py",
                      JObject
                        [("type", JString "Function");
                         ("name", JString "handler");
                         ("lineno", JInt 3);
                         ("routes",
                          JArray [JString "@app.route('/x')"])])]])]).
Proof.
  split; [|vm_compute; reflexivity].
  intros W self extensions results Hf.
  apply find_visited_inv in Hf as (_ & _ & Hrec).
  eexists. split; [reflexivity|]. split.
  - unfold Dict.keys. rewrite map_map. apply map_ext. now intros [path recs].
  - intros path value Hin.
    apply in_map_iff in Hin as [[path' recs] [Heq Hin]].
    inversion Heq. subst. exists recs. split; [exact Hin|].
    split; [reflexivity|]. intros r Hr.
    destruct (Hrec _ _ _ Hin Hr)
      as (v & _ & _ & contents & items & key & _ & _ & _ & Hret & _ & Hty).
    apply andb_true_iff in Hret as [_ Hfile].
    apply String.eqb_eq in Hfile.
    eexists. unfold default. rewrite Hfile, Hty.
    split; [reflexivity|]. split; [|reflexivity].
    split; [eexists; reflexivity|]. intros k. reflexivity.
Qed.

Lemma dumps_document_witness :
  exists entries,
    dumps [("/srv/app/views.py",
            [{| obj := Examples.handler; routes := ["@app.route('/x')"];
                obj_type := "Function" |}])]
    = JObject entries
    /\ map fst entries = ["/srv/app/views.py"].
Proof.
  destruct (proj1 dumps_document Examples.app
              (Testable_init Examples.app "/srv/app") None
              [("/srv/app/views.py",
                [{| obj := Examples.handler;
                    routes := ["@app.route('/x')"];
                    obj_type := "Function" |}])]
              eq_refl) as (entries & Hd & Hk & _).
  exists entries. split; [exact Hd|exact Hk].
Defined.

(** * Further properties *)

(** ** The decorator scanner and the lines it reads *)

(** What the scan collects comes from the lines it is given. *)
Lemma scan_back_from_lines (above : list string) (route : string) :
  In route (scan_back above) ->
  exists l, In l above
            /\ Str.startswith l "@" = true
            /\ Str.contains route_marker l = true
            /\ route = Str.strip l.
Proof.
  induction above as [|l above IH]; cbn [scan_back]; [intros []|].
  destruct (Str.startswith l "@") eqn:Hat; [|intros []].
  destruct (Str.contains route_marker l) eqn:Hm; cbn [app In].
  - intros [<-|H].
    + exists l. auto.
    + destruct (IH H) as (l' & Hin & Hl'). exists l'. auto.
  - intros H. destruct (IH H) as (l' & Hin & Hl'). exists l'. auto.
Qed.

Lemma scan_back_length (above : list string) :
  (List.length (scan_back above) <= List.length above)%nat.
Proof.
  induction above as [|l above IH]; cbn [scan_back List.length]; [lia|].
  destruct (Str.startswith l "@"); cbn [List.length]; [|lia].
  destruct (Str.contains route_marker l); cbn [app List.length]; lia.
Qed.

Lemma in_firstn_nth_error {A : Type} (n : nat) (l : list A) (x : A) :
  In x (firstn n l) -> exists i, (i < n)%nat /\ nth_error l i = Some x.
Proof.
  revert l. induction n as [|n IH]; intros [|y l]; cbn [firstn In];
    try contradiction.
  intros [->|H].
  - exists O. split; [lia|reflexivity].
  - destruct (IH l H) as (i & Hi & Hn). exists (S i). split; [lia|exact Hn].
Qed.

(** X1: the lines from the definition on play no part: [get_routes] on a
    file gives what it gives on the lines above the definition alone. *)
Theorem get_routes_ignores_definition_and_below
  (above below : list string) :
  get_routes (above ++ below) (Z.of_nat (List.length above) + 1)
  = get_routes above (Z.of_nat (List.length above) + 1).
Proof.
  rewrite !get_routes_scan, length_app.
  replace (Z.of_nat (List.length above) + 1 - 1)
    with (Z.of_nat (List.length above)) by lia.
  destruct (Z.ltb_spec (Z.of_nat (List.length above + List.length below))
              (Z.of_nat (List.length above))) as [E|E]; [lia|].
  destruct (Z.ltb_spec (Z.of_nat (List.length above))
              (Z.of_nat (List.length above))) as [E'|E']; [lia|].
  rewrite Nat2Z.id.
  replace (List.length above) with (List.length above + 0)%nat at 1 by lia.
  rewrite firstn_app_2. cbn [firstn]. rewrite app_nil_r, firstn_all.
  reflexivity.
Qed.

(** X2: every route [get_routes] returns is the stripped text of a line
    of the file at an index from 0 to [lineno - 2], a line that starts
    with '@' and contains '.route('; and there are at most [lineno - 1]
    routes. *)
Theorem get_routes_from_lines_above (contents : list string) (lineno : Z)
  (routes : list string) :
  get_routes contents lineno = Ok routes ->
  (forall route, In route routes ->
     exists i l,
       0 <= i <= lineno - 2
       /\ getitem contents i = Ok l
       /\ Str.startswith l "@" = true
       /\ Str.contains route_marker l = true
       /\ route = Str.strip l)
  /\ Z.of_nat (List.length routes) <= Z.max (lineno - 1) 0.
Proof.
  rewrite get_routes_scan.
  destruct (Z.of_nat (List.length contents) <? lineno - 1); [discriminate|].
  intros H. inversion H as [Hr]. clear H. split.
  - intros route Hin.
    apply scan_back_from_lines in Hin as (l & Hl & Hat & Hm & ->).
    apply in_rev, in_firstn_nth_error in Hl as (i & Hi & Hn).
    exists (Z.of_nat i), l. repeat split; try assumption; try lia.
    now apply getitem_nth.
  - pose proof (scan_back_length
                  (rev (firstn (Z.to_nat (lineno - 1)) contents))) as Hlen.
    rewrite length_rev in Hlen.
    pose proof (firstn_le_length (Z.to_nat (lineno - 1)) contents). lia.
Qed.

Lemma get_routes_from_lines_above_witness :
  Z.of_nat (List.length ["@app.route('/x')"]) <= Z.max (3 - 1) 0.
Proof.
  apply (get_routes_from_lines_above Examples.views_py 3
           ["@app.route('/x')"] eq_refl).
Defined.

Module SpaceFacts.
Import Str.

Lemma rstrip_all_space (ws : string) :
  all_space ws = true -> rstrip ws = EmptyString.
Proof.
  induction ws as [|c ws IH]; [reflexivity|].
  cbn [all_space rstrip]. intros H. apply andb_true_iff in H as [Hc Hw].
  now rewrite (IH Hw), Hc.
Qed.

Lemma rstrip_app_space (s ws : string) :
  all_space ws = true -> rstrip (String.append s ws) = rstrip s.
Proof.
  intros Hw. induction s as [|c s IH]; cbn [String.append rstrip].
  - now apply rstrip_all_space.
  - now rewrite IH.
Qed.

Lemma lstrip_all_space (ws : string) :
  all_space ws = true -> lstrip ws = EmptyString.
Proof.
  induction ws as [|c ws IH]; [reflexivity|].
  cbn [all_space lstrip]. intros H. apply andb_true_iff in H as [Hc Hw].
  rewrite Hc. now apply IH.
Qed.

Lemma strip_app_space (s ws : string) :
  all_space ws = true -> strip (String.append s ws) = strip s.
Proof.
  intros Hw. unfold strip.
  induction s as [|c s IH]; cbn [String.append lstrip].
  - now rewrite lstrip_all_space.
  - destruct (isspace c); [exact IH|].
    now apply (rstrip_app_space (String c s)).
Qed.

(** No string that ends in a character other than whitespace starts a
    string of whitespace. *)
Lemma startswith_all_space (ws p : string) :
  all_space ws = true -> nonspace (last p) = true ->
  startswith ws p = false.
Proof.
  revert ws. induction p as [|a p IH]; intros ws Hw Hl; [discriminate|].
  destruct ws as [|c ws]; [reflexivity|]. cbn [startswith].
  cbn [all_space] in Hw. apply andb_true_iff in Hw as [Hc Hw].
  destruct (Ascii.eqb_spec a c) as [->|]; [|reflexivity]. cbn [andb].
  destruct p as [|a' p'].
  - cbn [last nonspace] in Hl. rewrite Hc in Hl. discriminate.
  - now apply IH.
Qed.

Lemma startswith_app_space (s ws p : string) :
  all_space ws = true -> nonspace (last p) = true ->
  startswith (String.append s ws) p = startswith s p.
Proof.
  intros Hw. revert s. induction p as [|a p IH]; intros s Hl;
    [discriminate|].
  destruct s as [|b s]; cbn [String.append].
  - now rewrite startswith_all_space.
  - cbn [startswith]. destruct p as [|a' p']; [reflexivity|].
    now rewrite IH.
Qed.

Lemma contains_all_space (ws p : string) :
  all_space ws = true -> nonspace (last p) = true ->
  contains p ws = false.
Proof.
  intros Hw Hl. induction ws as [|c ws IH]; cbn [contains].
  - now rewrite startswith_all_space.
  - rewrite startswith_all_space by assumption.
    cbn [all_space] in Hw. apply andb_true_iff in Hw as [_ Hw].
    now apply IH.
Qed.

Lemma contains_app_space (s ws p : string) :
  all_space ws = true -> nonspace (last p) = true ->
  contains p (String.append s ws) = contains p s.
Proof.
  intros Hw Hl. induction s as [|c s IH]; cbn [String.append].
  - rewrite contains_all_space by assumption.
    cbn [contains]. destruct p; [discriminate|reflexivity].
  - cbn [contains]. rewrite IH. f_equal.
    exact (startswith_app_space (String c s) ws p Hw Hl).
Qed.

End SpaceFacts.

Lemma scan_back_same_text (above1 above2 : list string) :
  Forall2 same_text above1 above2 -> scan_back above1 = scan_back above2.
Proof.
  induction 1 as [|l1 l2 above1 above2 (ws & Hw & ->) _ IH]; [reflexivity|].
  cbn [scan_back].
  rewrite SpaceFacts.startswith_app_space by (exact Hw || reflexivity).
  rewrite SpaceFacts.contains_app_space by (exact Hw || reflexivity).
  rewrite SpaceFacts.strip_app_space by exact Hw.
  now rewrite IH.
Qed.

Lemma Forall2_firstn {A B : Type} (R : A -> B -> Prop) (n : nat)
  (l1 : list A) (l2 : list B) :
  Forall2 R l1 l2 -> Forall2 R (firstn n l1) (firstn n l2).
Proof.
  intros H. revert n. induction H as [|x y l1 l2 Hxy _ IH]; intros [|n];
    cbn [firstn]; constructor; auto.
Qed.

Lemma Forall2_rev {A B : Type} (R : A -> B -> Prop)
  (l1 : list A) (l2 : list B) :
  Forall2 R l1 l2 -> Forall2 R (rev l1) (rev l2).
Proof.
  induction 1 as [|x y l1 l2 Hxy _ IH]; cbn [rev]; [constructor|].
  apply Forall2_app; [exact IH|]. now repeat constructor.
Qed.

(** X3: whitespace at the end of the lines plays no part.  Two files
    whose lines differ only there (LF or CR LF, trailing blanks) give the
    same outcome, for every [lineno]. *)
Theorem get_routes_ignores_trailing_whitespace
  (contents1 contents2 : list string) (lineno : Z) :
  Forall2 same_text contents1 contents2 ->
  get_routes contents1 lineno = get_routes contents2 lineno.
Proof.
  intros H. rewrite !get_routes_scan.
  rewrite (Forall2_length H).
  destruct (Z.of_nat (List.length contents2) <? lineno - 1); [reflexivity|].
  f_equal. apply scan_back_same_text, Forall2_rev, Forall2_firstn, H.
Qed.

Lemma get_routes_ignores_trailing_whitespace_witness :
  get_routes ["@app.route('/x')"; "def handler():"] 2
  = get_routes [line "@app.route('/x')  "; line "def handler():"] 2.
Proof.
  apply get_routes_ignores_trailing_whitespace.
  constructor; [|constructor; [|constructor]].
  - exists (line "  "). split; reflexivity.
  - exists (line ""). split; reflexivity.
Defined.

(** ** How [find] ends *)

Lemma visit_visit_records (W : World) (self : Testable)
  (results : ResultMapping) (v : string * string) :
  visit W self results v
  = (rs <- visit_records W self v ;;
     Ok (Dict.set (path_of W v)
           (match Dict.get (path_of W v) results with
            | Some old => old ++ rs
            | None => rs
            end) results)).
Proof.
  unfold visit, visit_records.
  destruct (open_readlines W (path_of W v)); cbn [bind]; [|reflexivity].
  destruct (pyclbr_readmodule_ex W _ _); reflexivity.
Qed.






(** ** The mapping [find] returns *)

Lemma dict_set_fresh {V : Type} (k : string) (v : V) (d : Dict.t V) :
  Dict.get k d = None -> Dict.set k v d = d ++ [(k, v)].
Proof.
  induction d as [|[k' w] d IH]; cbn [Dict.get Dict.set app]; [reflexivity|].
  destruct (String.eqb k k'); [discriminate|]. intros H. now rewrite IH.
Qed.

Lemma dict_get_snoc_other {V : Type} (k k' : string) (v : V)
  (d : Dict.t V) :
  k' <> k -> Dict.get k' (d ++ [(k, v)]) = Dict.get k' d.
Proof.
  intros Hk. apply String.eqb_neq in Hk.
  induction d as [|[k'' w] d IH]; cbn [Dict.get app].
  - now rewrite Hk.
  - destruct (String.eqb k' k''); [reflexivity|exact IH].
Qed.

(** When no file is met twice, each visit adds one entry at the end. *)
Lemma visits_loop_distinct (W : World) (self : Testable)
  (l : list (string * string)) :
  forall s s',
    NoDup (map (path_of W) l) ->
    (forall v, In v l -> Dict.get (path_of W v) s = None) ->
    for_each (visit W self) l s = Ok s' ->
    exists new,
      s' = s ++ new
      /\ Forall2 (fun v entry => fst entry = path_of W v
                                 /\ visit_records W self v = Ok (snd entry))
           l new.
Proof.
  induction l as [|x l IH]; intros s s' Hnd Hfresh H.
  - inversion H. exists []. split; [now rewrite app_nil_r|constructor].
  - cbn [for_each] in H. rewrite visit_visit_records in H.
    destruct (visit_records W self x) as [rs|] eqn:Hx; [|discriminate].
    cbn [bind] in H. rewrite (Hfresh x (or_introl eq_refl)) in H.
    rewrite dict_set_fresh in H by (apply Hfresh; now left).
    cbn [map] in Hnd. inversion Hnd as [|? ? Hnotin Hnd']; subst.
    apply IH in H as (new & -> & Hnew); [|exact Hnd'|].
    + exists ((path_of W x, rs) :: new). split.
      * now rewrite <- app_assoc.
      * constructor; [split; [reflexivity|exact Hx]|exact Hnew].
    + intros v Hv. rewrite dict_get_snoc_other; [apply Hfresh; now right|].
      intros Heq. apply Hnotin. rewrite <- Heq. now apply in_map.
Qed.

(** X7: when the walk meets no file twice, the mapping [find] returns
    has one entry per analyzed file, in the order of the walk, and the
    records of an entry are those of the descriptors [pyclbr] gave for
    the file and lines 104-107 kept: all of them, once each, in the order
    of [pyclbr]'s dict, each with the type name of its class and with the
    routes [get_routes] finds for its line. *)
Theorem find_entries_in_walk_order (W : World) (self : Testable)
  (extensions : option (list string)) (results : ResultMapping) :
  distinct_paths W self (extensions_or_default extensions) ->
  find W self extensions = Ok results ->
  Forall2
    (fun v entry =>
       fst entry = path_of W v
       /\ exists contents items,
           open_readlines W (path_of W v) = Ok contents
           /\ pyclbr_readmodule_ex W (fst (os_path_splitext W (snd v)))
                [fst v] = Ok items
           /\ map obj (snd entry)
              = map snd (filter (fun it => retained self (path_of W v)
                                             (snd it)) items)
           /\ Forall (fun r => get_routes contents (lineno (obj r))
                               = Ok (routes r)
                               /\ obj_type r = class_name (cls (obj r)))
                (snd entry))
    (visits W self (extensions_or_default extensions)) results.
Proof.
  intros Hnd Hf. rewrite find_find_in, find_in_visits in Hf.
  apply visits_loop_distinct in Hf as (new & -> & Hnew);
    [|exact Hnd|reflexivity].
  cbn [app]. revert Hnew. apply Forall2_impl.
  intros v [k rs] [Hk Hrs]. split; [exact Hk|].
  cbn [snd] in *. unfold visit_records in Hrs.
  destruct (open_readlines W (path_of W v)) as [contents|]; [|discriminate].
  destruct (pyclbr_readmodule_ex W _ _) as [items|]; [|discriminate].
  cbn [bind] in Hrs. exists contents, items.
  split; [reflexivity|]. split; [reflexivity|].
  now apply records_of_spec.
Qed.

Lemma find_entries_in_walk_order_witness :
  Forall2
    (fun v entry =>
       fst entry = path_of Examples.app_import v
       /\ exists contents items,
           open_readlines Examples.app_import
             (path_of Examples.app_import v) = Ok contents
           /\ pyclbr_readmodule_ex Examples.app_import
                (fst (os_path_splitext Examples.app_import (snd v)))
                [fst v] = Ok items
           /\ map obj (snd entry)
              = map snd
                  (filter
                     (fun it =>
                        retained
                          (Testable_init Examples.app_import "/srv/app")
                          (path_of Examples.app_import v) (snd it))
                     items)
           /\ Forall (fun r => get_routes contents (lineno (obj r))
                               = Ok (routes r)
                               /\ obj_type r = class_name (cls (obj r)))
                (snd entry))
    [("/srv/app", "views.py"); ("/srv/app", "util.py")]
    [("/srv/app/views.py",
      [{| obj := {| file := "/srv/app/views.py"; lineno := 5;
                    module := "views"; name := "handler";
                    cls := Function |};
          routes := ["@app.route('/x')"]; obj_type := "Function" |}]);
     ("/srv/app/util.py",
      [{| obj := Examples.helper; routes := [];
          obj_type := "Function" |}])].
Proof.
  apply (find_entries_in_walk_order Examples.app_import
           (Testable_init Examples.app_import "/srv/app") None).
  - unfold distinct_paths. vm_compute.
    constructor; [intros [H|[]]; discriminate|].
    constructor; [intros []|constructor].
  - reflexivity.
Defined.




(** ** The document *)

Lemma map_eq_Forall2 {A B : Type} (f : A -> B) (l1 l2 : list A) :
  map f l1 = map f l2 -> Forall2 (fun a b => f a = f b) l1 l2.
Proof.
  revert l2. induction l1 as [|a l1 IH]; intros [|b l2] H;
    try discriminate; [constructor|].
  inversion H. constructor; auto.
Qed.

Lemma map_JString_injective (l1 l2 : list string) :
  map JString l1 = map JString l2 -> l1 = l2.
Proof.
  revert l2. induction l1 as [|a l1 IH]; intros [|b l2] H;
    try discriminate; [reflexivity|].
  inversion H. f_equal. now apply IH.
Qed.

Lemma default_same_fields (r1 r2 : Result) :
  default r1 = default r2 <-> same_fields r1 r2.
Proof.
  unfold default, same_fields. split.
  - intros H. inversion H as [[Hf Ht Hn Hl Hr]].
    apply map_JString_injective in Hr. auto.
  - intros (-> & -> & -> & -> & ->). reflexivity.
Qed.

(** X9: the document keeps the file path, the type, the name, the line
    number and the routes of every record, in order, and nothing else:
    two mappings have the same document exactly when they have the same
    keys in the same order and, under each key, records that agree, one
    by one, on those five fields. *)
Theorem dumps_same_document_iff (m1 m2 : ResultMapping) :
  dumps m1 = dumps m2
  <-> Forall2 (fun e1 e2 => fst e1 = fst e2
                            /\ Forall2 same_fields (snd e1) (snd e2))
        m1 m2.
Proof.
  unfold dumps. split.
  - intros H. inversion H as [Hm]. clear H.
    apply map_eq_Forall2 in Hm. revert Hm. apply Forall2_impl.
    intros [k1 recs1] [k2 recs2] Heq. inversion Heq as [[Hk Hr]].
    split; [reflexivity|]. cbn [snd].
    apply map_eq_Forall2 in Hr. revert Hr. apply Forall2_impl.
    intros r1 r2. apply default_same_fields.
  - intros H. f_equal.
    induction H as [|[k1 recs1] [k2 recs2] m1 m2 [Hk Hr] _ IH];
      [reflexivity|].
    cbn [map fst snd] in *. subst k2. rewrite IH. do 3 f_equal.
    clear IH. induction Hr as [|r1 r2 recs1 recs2 Hr _ IH]; [reflexivity|].
    cbn [map]. f_equal; [now apply default_same_fields|exact IH].
Qed.

Lemma dumps_same_document_iff_witness :
  dumps
    [("/srv/app/views.py",
      [{| obj := Examples.handler; routes := ["@app.route('/x')"];
          obj_type := "Function" |}])]
  = dumps
      [("/srv/app/views.py",
        [{| obj := {| file := "/srv/app/views.py"; lineno := 3;
                      module := "app.views"; name := "handler";
                      cls := Class |};
            routes := ["@app.route('/x')"];
            obj_type := "Function" |}])].
Proof.
  apply (proj2 (dumps_same_document_iff _ _)).
  constructor; [|constructor]. split; [reflexivity|].
  constructor; [|constructor]. repeat split.
Defined.
